(** * The reward and streak bookkeeping of the chat-with-gemini handler

    A shallow embedding of the edge function [serve(async (req) => ...)]
    (supabase function chat-with-gemini) and the properties of its
    points / streak / ledger procedure.

    Conventions of the embedding.
    - JavaScript numbers that hold integers (points, streaks, counters,
      millisecond timestamps) are [Z]; all the values met here stay far
      below 2^53, where the arithmetic of doubles is exact.
    - A calendar date string "YYYY-MM-DD" (the [date] column
      [last_message_date], and [new Date().toISOString().split('T')[0]])
      is a record of its three numeric fields; two such strings are equal
      exactly when the fields are.
    - Every [await] on an external service is an input of the handler
      ([Env]) or an operation on the tables of [World]; the handler is a
      computation in a state-and-exception monad over [World].
    - The request body is JSON that parses, and a write to a table takes
      effect (the handler only logs a failed write and goes on); the
      console is not part of the world. *)

From Stdlib Require Import ZArith List String Ascii Bool Lia DecimalString.
Import ListNotations.
Local Open Scope string_scope.
Local Open Scope Z_scope.

(* ================================================================== *)
(** ** Calendar dates and [new Date(s).getTime()] *)

Module DateModel.

Record CalDate := mkDate { year : Z; month : Z; day : Z }.

Definition date_eqb (a b : CalDate) : bool :=
  (year a =? year b) && (month a =? month b) && (day a =? day b).

Definition is_leap (y : Z) : bool :=
  (y mod 4 =? 0) && (negb (y mod 100 =? 0) || (y mod 400 =? 0)).

Definition DaysInYear (y : Z) : Z := if is_leap y then 366 else 365.

Definition DaysInMonth (y m : Z) : Z :=
  match m with
  | 1 => 31 | 2 => if is_leap y then 29 else 28 | 3 => 31 | 4 => 30
  | 5 => 31 | 6 => 30 | 7 => 31 | 8 => 31 | 9 => 30 | 10 => 31
  | 11 => 30 | 12 => 31
  | _ => 0
  end.

(** Days of the year that precede the first of month [m]. *)
Definition DaysBeforeMonth (y m : Z) : Z :=
  let l := if is_leap y then 1 else 0 in
  match m with
  | 1 => 0 | 2 => 31 | 3 => 59 + l | 4 => 90 + l | 5 => 120 + l
  | 6 => 151 + l | 7 => 181 + l | 8 => 212 + l | 9 => 243 + l
  | 10 => 273 + l | 11 => 304 + l | 12 => 334 + l
  | _ => 0
  end.

(** ECMAScript [DayFromYear]: the day number of 1 January of year [y],
    counted from 1 January 1970. [/] on [Z] is the floor division. *)
Definition DayFromYear (y : Z) : Z :=
  365 * (y - 1970) + (y - 1969) / 4 - (y - 1901) / 100 + (y - 1601) / 400.

(** ECMAScript [MakeDay] on a month in 1..12: the day number of a date. *)
Definition MakeDay (d : CalDate) : Z :=
  DayFromYear (year d) + DaysBeforeMonth (year d) (month d) + (day d - 1).

Definition msPerDay : Z := 86400000.

(** The fields name a day of the calendar. *)
Definition month_day_ok (d : CalDate) : bool :=
  (1 <=? month d) && (month d <=? 12) &&
  (1 <=? day d) && (day d <=? DaysInMonth (year d) (month d)).

(** ECMAScript [TimeClip]: a time value is at most 8.64e15 ms, that is
    100,000,000 days, away from the epoch. *)
Definition in_time_range (d : CalDate) : bool :=
  (-100000000 <=? MakeDay d) && (MakeDay d <=? 100000000).

Definition Date_valid (d : CalDate) : bool :=
  month_day_ok d && in_time_range d.

(** [new Date(s).getTime()] for a date-only string [s]: the date is read
    as midnight UTC, so the time value is the day number times
    [msPerDay]; [None] stands for NaN (Invalid Date). *)
Definition getTime (d : CalDate) : option Z :=
  if Date_valid d then Some (MakeDay d * msPerDay) else None.

(** The day that follows [d] in the calendar. *)
Definition next_day (d : CalDate) : CalDate :=
  if day d <? DaysInMonth (year d) (month d)
  then mkDate (year d) (month d) (day d + 1)
  else if month d <? 12
       then mkDate (year d) (month d + 1) 1
       else mkDate (year d + 1) 1 1.

End DateModel.
Import DateModel.

(* ================================================================== *)
(** ** The tables of the backend and the external services *)

Module Backend.

(** A row of [profiles]; the handler selects the four reward columns of
    the row whose [user_id] is the caller's. *)
Record ProfileRow := mkProfile {
  user_id : string;
  reward_points : Z;
  daily_streak : Z;
  last_message_date : option CalDate;
  total_messages : Z
}.

(** A row of [reward_transactions]. *)
Record RewardTransaction := mkTransaction {
  tx_user_id : string;
  points_change : Z;
  transaction_type : string;
  description : string
}.

(** A row of [messages]. *)
Record MessageRow := mkMessageRow {
  conversation_id : string;
  msg_user_id : string;
  msg_content : string;
  msg_role : string;
  tokens_used : option Z;
  response_time_ms : option Z
}.

(** A row of [conversations]: the two columns the handler touches. *)
Record ConversationRow := mkConversation {
  conv_id : string;
  title : string
}.

Inductive Role := user | assistant.

Record ChatMessage := mkChatMessage { role : Role; content : string }.

(** The JSON body; an absent key is [None]. *)
Record ChatRequest := mkChatRequest {
  messages : option (list ChatMessage);
  conversationId : option string;
  boost : option bool
}.

Record Request := mkRequest {
  method : string;
  authorization : option string;
  body : ChatRequest
}.

Record GeminiMessage := mkGeminiMessage { g_role : string; g_text : string }.

(** One [fetch] of the generateContent endpoint (the generation
    configuration is constant and left out). *)
Record GeminiCall := mkGeminiCall {
  x_goog_api_key : string;
  contents : list GeminiMessage
}.

(** What the endpoint answers: [ok], the status, and from the JSON of a
    successful answer the text of each candidate's first part and
    [usageMetadata?.totalTokenCount]. *)
Record GeminiResponse := mkGeminiResponse {
  ok : bool;
  status : Z;
  candidates : option (list string);
  totalTokenCount : option Z
}.

(** Everything the handler can change or cause. *)
Record World := mkWorld {
  profiles : list ProfileRow;
  reward_transactions : list RewardTransaction;
  message_rows : list MessageRow;
  conversations : list ConversationRow;
  gemini_calls : list GeminiCall
}.

(** What one invocation reads from outside: the identity service, the
    environment variable, the answer of the LLM endpoint and the clock. *)
Record Env := mkEnv {
  getUser : string -> option string;
  GOOGLE_AI_API_KEY : option string;
  gemini_api : GeminiCall -> GeminiResponse;
  startTime : Z;
  endTime : Z;
  today : CalDate
}.

(** The JSON of a successful answer. *)
Record ChatResponse := mkChatResponse {
  response : string;
  tokensUsed : Z;
  responseTime : Z;
  r_pointsEarned : Z;
  pointsSpent : Z;
  r_newStreak : Z;
  totalPoints : Z
}.

Inductive HttpResponse :=
| Preflight                                  (* 200, empty body *)
| Ok200 (r : ChatResponse)
| Err500 (error details : string).

End Backend.
Import Backend.

(* ================================================================== *)
(** ** State-and-exception monad of the handler

    [throw] is [throw new Error(msg)]: it abandons the rest of the [try]
    block and keeps the state reached so far (nothing is rolled back). *)

Module HandlerMonad.

Definition M (A : Type) : Type := World -> World * (string + A).

Definition ret {A} (a : A) : M A := fun w => (w, inr a).

Definition bind {A B} (m : M A) (k : A -> M B) : M B :=
  fun w => match m w with
           | (w', inr a) => k a w'
           | (w', inl e) => (w', inl e)
           end.

Definition throw {A} (msg : string) : M A := fun w => (w, inl msg).

Definition gets {A} (f : World -> A) : M A := fun w => (w, inr (f w)).

Definition modify (f : World -> World) : M unit := fun w => (f w, inr tt).

Declare Scope handler_scope.
Delimit Scope handler_scope with handler.

Notation "x <- m ;; k" := (bind m (fun x => k))
  (at level 61, m at next level, right associativity) : handler_scope.
Notation "m ;;; k" := (bind m (fun _ => k))
  (at level 61, right associativity) : handler_scope.

End HandlerMonad.
Import HandlerMonad.

(* ================================================================== *)
(** ** The points and streak calculation (the handler's lines after the
       LLM answer) *)

Module Reward.

(** [String(n)] of an integer-valued number. *)
Definition number_to_string (n : Z) : string :=
  NilZero.string_of_int (Z.to_int n).

(** [const isNewDay = !lastMessageDate || lastMessageDate !== today] *)
Definition isNewDay (lastMessageDate : option CalDate) (today : CalDate) : bool :=
  match lastMessageDate with
  | None => true
  | Some l => negb (date_eqb l today)
  end.

(** [const isConsecutiveDay = lastMessageDate &&
      new Date(today).getTime() - new Date(lastMessageDate).getTime() === 86400000]
    (a subtraction with NaN is NaN, which equals nothing). *)
Definition isConsecutiveDay (lastMessageDate : option CalDate) (today : CalDate) : bool :=
  match lastMessageDate with
  | None => false
  | Some l =>
      match getTime today, getTime l with
      | Some t1, Some t0 => t1 - t0 =? 86400000
      | _, _ => false
      end
  end.

(** The two mutable locals after the [if (isNewDay) ...] block, as the
    pair [(pointsEarned, newStreak)]. *)
Definition streak_bonus (profile : ProfileRow) (today : CalDate) : Z * Z :=
  let lastMessageDate := last_message_date profile in
  let pointsEarned := 1 in
  let newStreak := daily_streak profile in
  if isNewDay lastMessageDate today then
    if isConsecutiveDay lastMessageDate today then
      (pointsEarned + 5, newStreak + 1)
    else
      match lastMessageDate with
      | Some _ => (pointsEarned, 1)
      | None => (pointsEarned, 1)
      end
  else (pointsEarned, newStreak).

Definition pointsEarned (profile : ProfileRow) (today : CalDate) : Z :=
  fst (streak_bonus profile today).

Definition newStreak (profile : ProfileRow) (today : CalDate) : Z :=
  snd (streak_bonus profile today).

(** [let pointChange = pointsEarned; if (boost) pointChange -= 10] *)
Definition pointChange (boost : bool) (pointsEarned : Z) : Z :=
  if boost then pointsEarned - 10 else pointsEarned.

Definition transactionType (boost : bool) (pointsEarned : Z) : string :=
  if boost then "boost"
  else if pointsEarned >? 1 then "streak" else "message".

Definition tx_description (boost : bool) (pointsEarned newStreak : Z) : string :=
  if boost then "Boost used for priority response"
  else if pointsEarned >? 1
       then ("Daily streak bonus (" ++ number_to_string newStreak ++ " days)")%string
       else "Message sent".

(** The object passed to [.update(...)] on [profiles], applied to a row. *)
Definition updated_profile (profile : ProfileRow) (today : CalDate) (boost : bool)
  (row : ProfileRow) : ProfileRow :=
  mkProfile (user_id row)
            (reward_points profile
             + pointChange boost (pointsEarned profile today))
            (newStreak profile today)
            (Some today)
            (total_messages profile + 1).

End Reward.
Import Reward.

(* ================================================================== *)
(** ** The request handler *)

Module Handler.

Local Open Scope handler_scope.

(** [s.replace(pat, rep)] with a string pattern: the first occurrence. *)
Fixpoint replace_first (pat rep s : string) : string :=
  if prefix pat s
  then (rep ++ substring (String.length pat)
                         (String.length s - String.length pat) s)%string
  else match s with
       | EmptyString => s
       | String c s' => String c (replace_first pat rep s')
       end.

(** A value is truthy unless it is absent or the empty string. *)
Definition truthy (o : option string) : option string :=
  match o with
  | Some EmptyString => None
  | _ => o
  end.

(** [.from('profiles').select(...).eq('user_id', uid).single()]: an error
    unless exactly one row matches. *)
Definition select_profile (uid : string) : M ProfileRow :=
  rows <- gets (fun w => filter (fun r => (user_id r =? uid)%string) (profiles w)) ;;
  match rows with
  | [p] => ret p
  | _ => throw "Failed to fetch user profile"
  end.

(** [.from('profiles').update(obj).eq('user_id', uid)] *)
Definition update_profile (uid : string) (upd : ProfileRow -> ProfileRow) : M unit :=
  modify (fun w =>
    mkWorld (map (fun r => if (user_id r =? uid)%string then upd r else r) (profiles w))
            (reward_transactions w) (message_rows w) (conversations w)
            (gemini_calls w)).

Definition insert_transaction (t : RewardTransaction) : M unit :=
  modify (fun w =>
    mkWorld (profiles w) (reward_transactions w ++ [t]) (message_rows w)
            (conversations w) (gemini_calls w)).

Definition insert_message (m : MessageRow) : M unit :=
  modify (fun w =>
    mkWorld (profiles w) (reward_transactions w) (message_rows w ++ [m])
            (conversations w) (gemini_calls w)).

Definition count_messages (cid : string) : M nat :=
  gets (fun w =>
    List.length (filter (fun m => (conversation_id m =? cid)%string) (message_rows w))).

Definition update_title (cid t : string) : M unit :=
  modify (fun w =>
    mkWorld (profiles w) (reward_transactions w) (message_rows w)
            (map (fun c => if (conv_id c =? cid)%string
                           then mkConversation (conv_id c) t else c)
                 (conversations w))
            (gemini_calls w)).

(** [await fetch(...)]: the call is made and the endpoint answers. *)
Definition fetch_gemini (env : Env) (c : GeminiCall) : M GeminiResponse :=
  modify (fun w =>
    mkWorld (profiles w) (reward_transactions w) (message_rows w)
            (conversations w) (gemini_calls w ++ [c])) ;;;
  ret (gemini_api env c).

Definition systemMessage (boost : bool) : string :=
  if boost
  then "You are a highly intelligent and helpful AI assistant. Provide detailed, accurate, and priority responses."
  else "You are a helpful AI assistant. Provide clear and accurate responses.".

Definition geminiMessages (boost : bool) (msgs : list ChatMessage) : list GeminiMessage :=
  mkGeminiMessage "user" (systemMessage boost)
  :: map (fun msg =>
            mkGeminiMessage (match role msg with
                             | assistant => "model"
                             | user => "user"
                             end)
                            (content msg))
         msgs.

(** [messages[0]?.content.slice(0, 50) + (messages[0]?.content.length > 50 ? '...' : '')] *)
Definition conversation_title (first : string) : string :=
  (substring 0 50 first
   ++ (if (50 <? String.length first)%nat then "..." else ""))%string.

(** Request data, authentication and the profile read: the [try] block
    up to the balance check. It yields the messages, the caller's id and
    the selected profile row. *)
Definition load_profile (env : Env) (req : Request)
  : M (list ChatMessage * string * ProfileRow) :=
  msgs <- match messages (body req) with
          | Some (m :: ms) => ret (m :: ms)
          | _ => throw "No messages provided"
          end ;;
  authHeader <- match truthy (authorization req) with
                | Some h => ret h
                | None => throw "No authorization header"
                end ;;
  let token := replace_first "Bearer " "" authHeader in
  uid <- match getUser env token with
         | Some u => ret u
         | None => throw "Authentication failed"
         end ;;
  profile <- select_profile uid ;;
  ret (msgs, uid, profile).

(** The request to the Gemini API and the reading of its answer; it
    yields [(aiResponse, tokensUsed, responseTime)]. *)
Definition ask_gemini (env : Env) (boost : bool) (msgs : list ChatMessage)
  : M (string * Z * Z) :=
  googleApiKey <- match truthy (GOOGLE_AI_API_KEY env) with
                  | Some k => ret k
                  | None => throw "Google AI API key not configured"
                  end ;;
  geminiResponse <- fetch_gemini env (mkGeminiCall googleApiKey (geminiMessages boost msgs)) ;;
  (if ok geminiResponse then ret tt
   else throw ("Gemini API error: " ++ number_to_string (status geminiResponse))%string) ;;;
  let responseTime := endTime env - startTime env in
  aiResponse <- match candidates geminiResponse with
                | Some (c :: _) => ret c
                | _ => throw "No response from Gemini API"
                end ;;
  let tokensUsed := match totalTokenCount geminiResponse with
                    | Some n => n
                    | None => 0
                    end in
  ret (aiResponse, tokensUsed, responseTime).

(** [if (pointChange !== 0) { ... insert into reward_transactions ... }] *)
Definition record_transaction (uid : string) (boost : bool)
  (pointsEarned newStreak pointChange : Z) : M unit :=
  if negb (pointChange =? 0)
  then insert_transaction
         (mkTransaction uid pointChange
                        (transactionType boost pointsEarned)
                        (tx_description boost pointsEarned newStreak))
  else ret tt.

(** "Calculate points and streaks", "Update user profile" and "Record
    reward transaction". *)
Definition record_rewards (env : Env) (uid : string) (profile : ProfileRow)
  (boost : bool) : M unit :=
  let today := today env in
  let pointsEarned := pointsEarned profile today in
  let newStreak := newStreak profile today in
  let pointChange := pointChange boost pointsEarned in
  update_profile uid (updated_profile profile today boost) ;;;
  record_transaction uid boost pointsEarned newStreak pointChange.

(** "Store the messages if conversationId is provided". *)
Definition store_messages (req : Request) (uid : string) (msgs : list ChatMessage)
  (aiResponse : string) (tokensUsed responseTime : Z) : M unit :=
  match truthy (conversationId (body req)) with
  | Some cid =>
      insert_message (mkMessageRow cid uid (content (last msgs (mkChatMessage user "")))
                                   "user" None None) ;;;
      insert_message (mkMessageRow cid uid aiResponse "assistant"
                                   (Some tokensUsed) (Some responseTime)) ;;;
      messageCount <- count_messages cid ;;
      if (messageCount <=? 2)%nat
      then update_title cid (conversation_title
                               (content (hd (mkChatMessage user "") msgs)))
      else ret tt
  | None => ret tt
  end.

(** [const { ..., boost = false } = await req.json()] *)
Definition boost_flag (req : Request) : bool :=
  match boost (body req) with
  | Some b => b
  | None => false
  end.

(** The body of the [try] block. *)
Definition chat (env : Env) (req : Request) : M ChatResponse :=
  let boost := boost_flag req in
  ctx <- load_profile env req ;;
  let '(msgs, uid, profile) := ctx in
  (if boost && (reward_points profile <? 10)
   then throw "Insufficient points for boost. Need 10 points."
   else ret tt) ;;;
  answer <- ask_gemini env boost msgs ;;
  let '(aiResponse, tokensUsed, responseTime) := answer in
  record_rewards env uid profile boost ;;;
  store_messages req uid msgs aiResponse tokensUsed responseTime ;;;
  let pointsEarned := pointsEarned profile (today env) in
  ret (mkChatResponse aiResponse tokensUsed responseTime pointsEarned
                      (if boost then 10 else 0)
                      (newStreak profile (today env))
                      (reward_points profile + pointChange boost pointsEarned)).

(** [serve(async (req) => ...)]: the CORS preflight, then the [try] block
    with its [catch], which answers 500 with
    [error.message || 'Internal server error'] and [error.toString()]. *)
Definition serve (env : Env) (req : Request) (w : World) : World * HttpResponse :=
  if (method req =? "OPTIONS")%string then (w, Preflight)
  else match chat env req w with
       | (w', inr r) => (w', Ok200 r)
       | (w', inl msg) =>
           (w', Err500 (match msg with
                        | EmptyString => "Internal server error"
                        | _ => msg
                        end)
                       ("Error: " ++ msg))
       end.

(** Successive invocations, each with its own clock and services. *)
Fixpoint serve_all (calls : list (Env * Request)) (w : World) : World :=
  match calls with
  | [] => w
  | (env, req) :: rest => serve_all rest (fst (serve env req w))
  end.

End Handler.
Import Handler.

(* ================================================================== *)
(** ** Vocabulary of the properties *)

Module Interaction.

(** The rows of [profiles] that belong to [uid]. *)
Definition profile_rows (uid : string) (w : World) : list ProfileRow :=
  filter (fun r => (user_id r =? uid)%string) (profiles w).

(** The interaction of caller [uid], whose profile row read [profile],
    completed: the handler took the world from [w] to [w'] and answered
    200 with [r]. *)
Definition completes (env : Env) (req : Request) (w : World)
  (uid : string) (profile : ProfileRow) (w' : World) (r : ChatResponse) : Prop :=
  (exists msgs, load_profile env req w = (w, inr (msgs, uid, profile))) /\
  serve env req w = (w', Ok200 r).

(** The LLM endpoint is configured and answers the request with at least
    one candidate. *)
Definition gemini_answers (env : Env) (boost : bool) (msgs : list ChatMessage) : Prop :=
  exists k,
    truthy (GOOGLE_AI_API_KEY env) = Some k /\
    ok (gemini_api env (mkGeminiCall k (geminiMessages boost msgs))) = true /\
    exists c cs,
      candidates (gemini_api env (mkGeminiCall k (geminiMessages boost msgs)))
      = Some (c :: cs).

(** The net point delta of a completed interaction, as the caller sees
    it: the new total minus the balance that was read. *)
Definition netDelta (profile : ProfileRow) (r : ChatResponse) : Z :=
  totalPoints r - reward_points profile.

(** The ledger row of an interaction of [uid] that read [profile]. *)
Definition ledger_entry (uid : string) (profile : ProfileRow) (today : CalDate)
  (boost : bool) : RewardTransaction :=
  mkTransaction uid
                (pointChange boost (pointsEarned profile today))
                (transactionType boost (pointsEarned profile today))
                (tx_description boost (pointsEarned profile today)
                                (newStreak profile today)).

(** What a completed interaction of [uid] that read [profile] answers
    and leaves behind, in terms of the calculation of [Reward]. *)
Record Outcome (env : Env) (req : Request) (w : World) (uid : string)
  (profile : ProfileRow) (w' : World) (r : ChatResponse) : Prop := {
  out_row : profile_rows uid w = [profile];
  out_balance : boost_flag req = true -> 10 <= reward_points profile;
  out_earned : r_pointsEarned r = pointsEarned profile (today env);
  out_streak : r_newStreak r = newStreak profile (today env);
  out_spent : pointsSpent r = if boost_flag req then 10 else 0;
  out_total : totalPoints r =
              reward_points profile
              + pointChange (boost_flag req) (pointsEarned profile (today env));
  out_profiles :
    profiles w' =
    map (fun row => if (user_id row =? uid)%string
                    then updated_profile profile (today env) (boost_flag req) row
                    else row)
        (profiles w);
  out_stored :
    profile_rows uid w' =
    [updated_profile profile (today env) (boost_flag req) profile];
  out_ledger :
    reward_transactions w' =
    (reward_transactions w ++
     (if negb (pointChange (boost_flag req) (pointsEarned profile (today env)) =? 0)
      then [ledger_entry uid profile (today env) (boost_flag req)] else []))%list;
  out_gemini :
    exists k msgs,
      gemini_calls w' =
      (gemini_calls w ++ [mkGeminiCall k (geminiMessages (boost_flag req) msgs)])%list
}.

(** [today - lastMessageDate] in calendar days. *)
Definition days_between (lastMessageDate today : CalDate) : Z :=
  MakeDay today - MakeDay lastMessageDate.

(** [s.includes(sub)] *)
Fixpoint contains (sub s : string) : bool :=
  prefix sub s ||
  match s with
  | EmptyString => false
  | String _ s' => contains sub s'
  end.

End Interaction.
Import Interaction.

(* ================================================================== *)
(** ** A concrete deployment for the scenarios *)

Module Scenario.

Definition env_on (d : CalDate) : Env :=
  mkEnv (fun token => if (token =? "token-1")%string then Some "user-1" else None)
        (Some "key")
        (fun _ => mkGeminiResponse true 200 (Some ["Hello!"]) (Some 42))
        1000 1350 d.

Definition request (b : bool) : Request :=
  mkRequest "POST" (Some "Bearer token-1")
            (mkChatRequest (Some [mkChatMessage user "hi"]) None (Some b)).

Definition world_of (p : ProfileRow) : World := mkWorld [p] [] [] [] [].

Definition profile_of (points streakLen : Z) (lastMessageDate : option CalDate)
  (total : Z) : ProfileRow :=
  mkProfile "user-1" points streakLen lastMessageDate total.

Definition answer (earned spent streakLen total : Z) : ChatResponse :=
  mkChatResponse "Hello!" 42 350 earned spent streakLen total.

End Scenario.
Import Scenario.

(* ================================================================== *)
(** ** Vocabulary for the ledger and the stored conversation *)

Module Bookkeeping.

(** The rows of a ledger segment that belong to [uid]. *)
Definition user_transactions (uid : string) (txs : list RewardTransaction)
  : list RewardTransaction :=
  filter (fun t => (tx_user_id t =? uid)%string) txs.



(** The rows of [messages] that belong to conversation [cid]. *)
Definition conversation_rows (cid : string) (w : World) : list MessageRow :=
  filter (fun m => (conversation_id m =? cid)%string) (message_rows w).

(** The two rows a completed interaction stores for conversation [cid]:
    the last message of the request, then the answer. *)
Definition exchange (cid uid : string) (msgs : list ChatMessage) (r : ChatResponse)
  : list MessageRow :=
  [mkMessageRow cid uid (content (last msgs (mkChatMessage user ""))) "user" None None;
   mkMessageRow cid uid (response r) "assistant"
                (Some (tokensUsed r)) (Some (responseTime r))].

(** A profile that has a last message date has a streak of at least 1. *)
Definition streak_started (p : ProfileRow) : Prop :=
  match last_message_date p with
  | None => True
  | Some _ => 1 <= daily_streak p
  end.

End Bookkeeping.
Import Bookkeeping.

(* ================================================================== *)
(** ** The caller: [sendMessage] of the chat interface

    The pieces of [sendMessage] that build the request of the handler
    and that fold its answer back into the component's state. The trimmed
    input [userMessage] and the timestamps [new Date().toISOString()] are
    parameters. *)

Module Client.

(** [interface Message] of the chat interface. *)
Record Message := mkMessage {
  id : string;
  role : Role;
  content : string;
  tokens_used : option Z;
  response_time_ms : option Z;
  created_at : string
}.

Definition tempUserMessage (userMessage now : string) : Message :=
  mkMessage "temp-user" user userMessage None None now.

Definition typingMessage (now : string) : Message :=
  mkMessage "typing" assistant "..." None None now.

(** [[...messages, tempUserMessage].map(msg => ({ role: msg.role, content: msg.content }))] *)
Definition chatMessages (messages : list Message) (tempUserMessage : Message)
  : list ChatMessage :=
  map (fun msg => mkChatMessage (role msg) (content msg))
      (messages ++ [tempUserMessage]).

(** What [supabase.functions.invoke('chat-with-gemini', { body, headers })]
    sends: a POST with the JSON body and the bearer header. *)
Definition invoke (messages : list Message) (userMessage now : string)
  (conversationId : option string) (boost : bool) (access_token : string) : Request :=
  mkRequest "POST"
            (Some ("Bearer " ++ access_token)%string)
            (mkChatRequest
               (Some (chatMessages messages (tempUserMessage userMessage now)))
               conversationId (Some boost)).

(** [setMessages(prev => [...prev, m])] *)
Definition append_message (m : Message) (prev : list Message) : list Message :=
  prev ++ [m].

(** "Remove typing indicator and add real response". *)
Definition show_response (r : ChatResponse) (now : string) (prev : list Message)
  : list Message :=
  let withoutTyping := filter (fun msg => negb (id msg =? "typing")%string) prev in
  withoutTyping ++
  [mkMessage "temp-ai" assistant (response r)
             (Some (tokensUsed r)) (Some (responseTime r)) now].

(** "Remove the temporary user message on error". *)
Definition remove_temporary (prev : list Message) : list Message :=
  filter (fun msg => negb (id msg =? "temp-user")%string
                     && negb (id msg =? "typing")%string) prev.

(** The list of messages after a [sendMessage] that got the answer [r]:
    the three [setMessages] updates in order. *)
Definition messages_after_success (userMessage now1 now2 now3 : string)
  (r : ChatResponse) (prev : list Message) : list Message :=
  show_response r now3
    (append_message (typingMessage now2)
       (append_message (tempUserMessage userMessage now1) prev)).

(** The list of messages after a [sendMessage] whose invocation failed:
    the two appends, then the [catch]. *)
Definition messages_after_failure (userMessage now1 now2 : string)
  (prev : list Message) : list Message :=
  remove_temporary
    (append_message (typingMessage now2)
       (append_message (tempUserMessage userMessage now1) prev)).

(** The description of the success toast. *)
Definition toastMessage (pointsEarned pointsSpent : Z) : string :=
  let toastMessage := ("+" ++ number_to_string pointsEarned ++ " points earned")%string in
  let toastMessage :=
    if pointsSpent >? 0
    then (toastMessage ++ ", -" ++ number_to_string pointsSpent ++ " for boost")%string
    else toastMessage in
  if pointsEarned >? 1
  then (toastMessage ++ " (streak bonus!)")%string
  else toastMessage.

End Client.

(* ================================================================== *)
(** ** The calendar: day numbers count calendar days *)

Lemma date_eqb_eq (a b : CalDate) : date_eqb a b = true <-> a = b.
Proof.
  unfold date_eqb. destruct a as [ya ma da], b as [yb mb db]; cbn.
  rewrite !andb_true_iff, !Z.eqb_eq. split.
  - intros [[-> ->] ->]. reflexivity.
  - intros H. injection H as -> -> ->. auto.
Qed.

Lemma date_eqb_refl (a : CalDate) : date_eqb a a = true.
Proof. now apply date_eqb_eq. Qed.

Lemma is_leap_cases (y : Z) :
  (is_leap y = true /\ y mod 4 = 0 /\ (y mod 100 <> 0 \/ y mod 400 = 0)) \/
  (is_leap y = false /\ (y mod 4 <> 0 \/ (y mod 100 = 0 /\ y mod 400 <> 0))).
Proof.
  unfold is_leap.
  destruct (Z.eqb_spec (y mod 4) 0), (Z.eqb_spec (y mod 100) 0),
    (Z.eqb_spec (y mod 400) 0); cbn; intuition lia.
Qed.

(** A year later, 1 January is [DaysInYear] days further. *)
Lemma DayFromYear_succ (y : Z) :
  DayFromYear (y + 1) = DayFromYear y + DaysInYear y.
Proof.
  unfold DayFromYear, DaysInYear.
  destruct (is_leap_cases y) as [(-> & H4 & H)|(-> & H)];
    Z.div_mod_to_equations; lia.
Qed.

Lemma DaysInYear_bounds (y : Z) : 365 <= DaysInYear y <= 366.
Proof. unfold DaysInYear. destruct (is_leap y); lia. Qed.

Lemma DayFromYear_le (y y' : Z) : y <= y' -> DayFromYear y <= DayFromYear y'.
Proof.
  intros Hle. replace y' with (y + Z.of_nat (Z.to_nat (y' - y))) by lia.
  induction (Z.to_nat (y' - y)) as [|n IH].
  - rewrite Z.add_0_r. lia.
  - rewrite Nat2Z.inj_succ, <- Z.add_1_r, Z.add_assoc, DayFromYear_succ.
    pose proof (DaysInYear_bounds (y + Z.of_nat n)). lia.
Qed.

Lemma month_day_ok_iff (d : CalDate) :
  month_day_ok d = true <->
  1 <= month d <= 12 /\ 1 <= day d <= DaysInMonth (year d) (month d).
Proof.
  unfold month_day_ok. rewrite !andb_true_iff, !Z.leb_le. tauto.
Qed.

Ltac month_cases m :=
  let H := fresh in
  assert (H : m = 1 \/ m = 2 \/ m = 3 \/ m = 4 \/ m = 5 \/ m = 6 \/ m = 7 \/
              m = 8 \/ m = 9 \/ m = 10 \/ m = 11 \/ m = 12) by lia;
  repeat (destruct H as [H|H]; [subst m|]); [..|subst m].

Ltac month_tables :=
  repeat match goal with
    | |- context [Z.pos ?p + 1] =>
        let v := eval vm_compute in (Z.pos p + 1) in
        change (Z.pos p + 1) with v
    end;
  unfold DaysInMonth, DaysBeforeMonth in *.

(** The day of the year stays inside the year. *)
Lemma day_of_year_bounds (d : CalDate) :
  month_day_ok d = true ->
  0 <= DaysBeforeMonth (year d) (month d) + (day d - 1) < DaysInYear (year d).
Proof.
  rewrite month_day_ok_iff. destruct d as [y m dd]; cbn [year month day].
  intros [Hm Hd]. unfold DaysInYear.
  month_cases m; month_tables; destruct (is_leap y); lia.
Qed.

Lemma MakeDay_year_bounds (d : CalDate) :
  month_day_ok d = true ->
  DayFromYear (year d) <= MakeDay d < DayFromYear (year d + 1).
Proof.
  intros H. apply day_of_year_bounds in H.
  rewrite DayFromYear_succ. unfold MakeDay. lia.
Qed.

Lemma MakeDay_same_year (d1 d2 : CalDate) :
  month_day_ok d1 = true -> month_day_ok d2 = true ->
  year d1 = year d2 ->
  MakeDay d1 = MakeDay d2 -> d1 = d2.
Proof.
  rewrite !month_day_ok_iff. destruct d1 as [y m1 a1], d2 as [y2 m2 a2].
  unfold MakeDay; cbn [year month day].
  intros [Hm1 Ha1] [Hm2 Ha2] <- Heq.
  assert (m1 = m2 /\ a1 = a2) as [-> ->]; [|reflexivity].
  month_cases m1; month_cases m2; month_tables; destruct (is_leap y); lia.
Qed.

(** Two days of the calendar with the same day number are the same day. *)
Lemma MakeDay_inj (d1 d2 : CalDate) :
  month_day_ok d1 = true -> month_day_ok d2 = true ->
  MakeDay d1 = MakeDay d2 -> d1 = d2.
Proof.
  intros H1 H2 Heq.
  pose proof (MakeDay_year_bounds d1 H1) as B1.
  pose proof (MakeDay_year_bounds d2 H2) as B2.
  destruct (Z.lt_trichotomy (year d1) (year d2)) as [Hlt|[Hy|Hgt]].
  - pose proof (DayFromYear_le (year d1 + 1) (year d2)). lia.
  - now apply MakeDay_same_year.
  - pose proof (DayFromYear_le (year d2 + 1) (year d1)). lia.
Qed.

Lemma next_day_ok (d : CalDate) :
  month_day_ok d = true -> month_day_ok (next_day d) = true.
Proof.
  rewrite !month_day_ok_iff. unfold next_day.
  destruct d as [y m a]; cbn [year month day]. intros [Hm Ha].
  destruct (Z.ltb_spec a (DaysInMonth y m)); cbn [year month day]; [lia|].
  destruct (Z.ltb_spec m 12); cbn [year month day].
  - split; [lia|]. month_cases m; month_tables; destruct (is_leap y); lia.
  - unfold DaysInMonth. lia.
Qed.

(** The next day of the calendar has the next day number. *)
Lemma MakeDay_next_day (d : CalDate) :
  month_day_ok d = true -> MakeDay (next_day d) = MakeDay d + 1.
Proof.
  rewrite month_day_ok_iff. unfold next_day, MakeDay.
  destruct d as [y m a]; cbn [year month day]. intros [Hm Ha].
  destruct (Z.ltb_spec a (DaysInMonth y m)); cbn [year month day]; [lia|].
  destruct (Z.ltb_spec m 12); cbn [year month day].
  - month_cases m; month_tables; destruct (is_leap y); lia.
  - assert (m = 12) by lia. subst m. rewrite DayFromYear_succ.
    unfold DaysInYear, DaysInMonth, DaysBeforeMonth in *.
    destruct (is_leap y); lia.
Qed.

Lemma Date_valid_iff (d : CalDate) :
  Date_valid d = true <->
  month_day_ok d = true /\ -100000000 <= MakeDay d <= 100000000.
Proof.
  unfold Date_valid, in_time_range.
  rewrite !andb_true_iff, !Z.leb_le. tauto.
Qed.

Lemma getTime_valid (d : CalDate) :
  Date_valid d = true -> getTime d = Some (MakeDay d * msPerDay).
Proof. unfold getTime. now intros ->. Qed.

(** One calendar day apart means: the next day. *)
Lemma days_between_one (l t : CalDate) :
  month_day_ok l = true -> month_day_ok t = true ->
  (days_between l t = 1 <-> t = next_day l).
Proof.
  intros Hl Ht. unfold days_between. split.
  - intros H. apply MakeDay_inj; auto using next_day_ok.
    rewrite MakeDay_next_day by assumption. lia.
  - intros ->. rewrite MakeDay_next_day by assumption. lia.
Qed.

(* ================================================================== *)
(** ** How the handler runs *)

Ltac run_monad :=
  unfold bind, ret, throw, gets, modify in *; cbn [fst snd] in *.

Lemma select_profile_run (uid : string) (w : World) :
  select_profile uid w =
  match profile_rows uid w with
  | [p] => (w, inr p)
  | _ => (w, inl "Failed to fetch user profile")
  end.
Proof.
  unfold select_profile, profile_rows. run_monad.
  destruct (filter _ (profiles w)) as [|p [|q l]]; reflexivity.
Qed.

Lemma load_profile_state (env : Env) (req : Request) (w w1 : World) res :
  load_profile env req w = (w1, res) -> w1 = w.
Proof.
  unfold load_profile. unfold bind at 1.
  destruct (messages (body req)) as [[|m ms]|]; run_monad;
    try (intros [= <- _]; reflexivity).
  destruct (truthy (authorization req)); try (intros [= <- _]; reflexivity).
  destruct (getUser env _); try (intros [= <- _]; reflexivity).
  rewrite select_profile_run.
  destruct (profile_rows _ w) as [|p [|q l]]; intros [= <- _]; reflexivity.
Qed.

Lemma load_profile_ok (env : Env) (req : Request) (w w1 : World)
  (msgs : list ChatMessage) (uid : string) (profile : ProfileRow) :
  load_profile env req w = (w1, inr (msgs, uid, profile)) ->
  messages (body req) = Some msgs /\ msgs <> [] /\
  (exists h, truthy (authorization req) = Some h /\
             getUser env (replace_first "Bearer " "" h) = Some uid) /\
  profile_rows uid w = [profile].
Proof.
  unfold load_profile. unfold bind at 1.
  destruct (messages (body req)) as [[|m ms]|]; run_monad; try discriminate.
  destruct (truthy (authorization req)) as [h|]; try discriminate.
  destruct (getUser env _) as [u|] eqn:Hu; try discriminate.
  rewrite select_profile_run.
  destruct (profile_rows u w) as [|p [|q l]] eqn:Hp; try discriminate.
  intros [= _ <- <- <-]. repeat split; try congruence; eauto.
Qed.

Lemma load_profile_complete (env : Env) (req : Request) (w : World)
  (msgs : list ChatMessage) (h uid : string) (profile : ProfileRow) :
  messages (body req) = Some msgs -> msgs <> [] ->
  truthy (authorization req) = Some h ->
  getUser env (replace_first "Bearer " "" h) = Some uid ->
  profile_rows uid w = [profile] ->
  load_profile env req w = (w, inr (msgs, uid, profile)).
Proof.
  intros Hm Hne Hh Hu Hp. unfold load_profile. unfold bind at 1.
  rewrite Hm. destruct msgs as [|m ms]; [congruence|]. run_monad.
  rewrite Hh, Hu, select_profile_run, Hp. reflexivity.
Qed.

Lemma ask_gemini_ok (env : Env) (b : bool) (msgs : list ChatMessage)
  (w w1 : World) (a : string * Z * Z) :
  ask_gemini env b msgs w = (w1, inr a) ->
  exists k,
    truthy (GOOGLE_AI_API_KEY env) = Some k /\
    w1 = mkWorld (profiles w) (reward_transactions w) (message_rows w)
                 (conversations w)
                 (gemini_calls w ++ [mkGeminiCall k (geminiMessages b msgs)]).
Proof.
  unfold ask_gemini, fetch_gemini. run_monad.
  destruct (truthy (GOOGLE_AI_API_KEY env)) as [k|]; try discriminate.
  destruct (ok _); try discriminate.
  destruct (candidates _) as [[|c cs]|]; try discriminate.
  intros [= <- _]. exists k. split; reflexivity.
Qed.

Lemma ask_gemini_complete (env : Env) (b : bool) (msgs : list ChatMessage) (w : World) :
  gemini_answers env b msgs ->
  exists k a,
    ask_gemini env b msgs w =
    (mkWorld (profiles w) (reward_transactions w) (message_rows w)
             (conversations w)
             (gemini_calls w ++ [mkGeminiCall k (geminiMessages b msgs)]),
     inr a).
Proof.
  intros (k & Hk & Hok & c & cs & Hc). exists k.
  unfold ask_gemini, fetch_gemini. run_monad.
  rewrite Hk, Hok, Hc. eexists. reflexivity.
Qed.

Lemma record_rewards_run (env : Env) (uid : string) (profile : ProfileRow)
  (b : bool) (w : World) :
  record_rewards env uid profile b w =
  (mkWorld (map (fun r => if (user_id r =? uid)%string
                          then updated_profile profile (today env) b r else r)
                (profiles w))
           (reward_transactions w ++
            (if negb (pointChange b (pointsEarned profile (today env)) =? 0)
             then [ledger_entry uid profile (today env) b] else []))
           (message_rows w) (conversations w) (gemini_calls w),
   inr tt).
Proof.
  unfold record_rewards, record_transaction, update_profile, insert_transaction,
    ledger_entry.
  run_monad.
  destruct (negb _); cbn [profiles reward_transactions message_rows
                           conversations gemini_calls];
    rewrite ?app_nil_r; reflexivity.
Qed.

Lemma store_messages_run (req : Request) (uid : string) (msgs : list ChatMessage)
  (ai : string) (tokens rt : Z) (w : World) :
  exists w1,
    store_messages req uid msgs ai tokens rt w = (w1, inr tt) /\
    profiles w1 = profiles w /\
    reward_transactions w1 = reward_transactions w /\
    gemini_calls w1 = gemini_calls w.
Proof.
  unfold store_messages, insert_message, count_messages, update_title.
  destruct (truthy (conversationId (body req))) as [cid|]; run_monad.
  - match goal with |- context [if ?c then _ else _] => destruct c end;
      eexists; repeat split.
  - eexists; repeat split.
Qed.

Lemma filter_map_same_key (uid : string) (f : ProfileRow -> ProfileRow)
  (rows : list ProfileRow) :
  (forall r, user_id (f r) = user_id r) ->
  filter (fun r => (user_id r =? uid)%string) (map f rows) =
  map f (filter (fun r => (user_id r =? uid)%string) rows).
Proof.
  intros Hf. induction rows as [|r rows IH]; cbn; [reflexivity|].
  rewrite Hf. destruct (user_id r =? uid)%string; cbn; congruence.
Qed.

Lemma profile_rows_user (uid : string) (w : World) (p : ProfileRow) :
  In p (profile_rows uid w) -> user_id p = uid.
Proof.
  unfold profile_rows. rewrite filter_In. intros [_ H].
  now apply String.eqb_eq.
Qed.

(** A run of the [try] block that returns went through every step. *)
Lemma chat_ok_inv (env : Env) (req : Request) (w w' : World) (r : ChatResponse) :
  chat env req w = (w', inr r) ->
  exists msgs uid profile,
    load_profile env req w = (w, inr (msgs, uid, profile)) /\
    Outcome env req w uid profile w' r.
Proof.
  unfold chat. unfold bind at 1.
  destruct (load_profile env req w) as [w0 [e|[[msgs uid] profile]]] eqn:Hload;
    [discriminate|].
  pose proof (load_profile_state _ _ _ _ _ Hload) as ->.
  destruct (load_profile_ok _ _ _ _ _ _ _ Hload) as (_ & _ & _ & Hrow).
  unfold bind at 1.
  destruct (boost_flag req && (reward_points profile <? 10)) eqn:Hbal;
    [unfold throw; discriminate|].
  unfold ret at 1. unfold bind at 1.
  destruct (ask_gemini env (boost_flag req) msgs w) as [w1 [e|[[ai tokens] rt]]] eqn:Hask;
    [discriminate|].
  destruct (ask_gemini_ok _ _ _ _ _ _ Hask) as (k & _ & ->).
  unfold bind at 1. rewrite record_rewards_run.
  unfold bind at 1.
  match goal with
  | |- context [store_messages ?a ?b ?c ?d ?e ?f ?g] =>
      destruct (store_messages_run a b c d e f g) as (w2 & -> & Hp & Hl & Hg)
  end.
  cbn [profiles reward_transactions gemini_calls] in Hp, Hl, Hg.
  unfold ret. intros [= <- <-].
  exists msgs, uid, profile. split; [reflexivity|].
  assert (Hu : user_id profile = uid).
  { apply (profile_rows_user uid w). rewrite Hrow. now left. }
  constructor; cbn [r_pointsEarned r_newStreak pointsSpent totalPoints];
    try reflexivity; try assumption.
  - intros Hb. rewrite Hb in Hbal. cbn in Hbal. lia.
  - unfold profile_rows. rewrite Hp.
    rewrite filter_map_same_key.
    + fold (profile_rows uid w). rewrite Hrow. cbn [map].
      rewrite Hu, String.eqb_refl. reflexivity.
    + intros row. destruct (user_id row =? uid)%string; reflexivity.
  - exists k, msgs. assumption.
Qed.

Lemma serve_ok_inv (env : Env) (req : Request) (w w' : World) (r : ChatResponse) :
  serve env req w = (w', Ok200 r) ->
  exists uid profile, completes env req w uid profile w' r.
Proof.
  intros Hs. pose proof Hs as Hs'. unfold serve in Hs'.
  destruct (method req =? "OPTIONS")%string; [discriminate|].
  destruct (chat env req w) as [w1 [e|r1]] eqn:Hc; [discriminate|].
  injection Hs' as <- <-.
  destruct (chat_ok_inv _ _ _ _ _ Hc) as (msgs & uid & profile & Hl & _).
  exists uid, profile. split; eauto.
Qed.

(** What every completed interaction answers and leaves behind. *)
Lemma completes_outcome (env : Env) (req : Request) (w : World) (uid : string)
  (profile : ProfileRow) (w' : World) (r : ChatResponse) :
  completes env req w uid profile w' r -> Outcome env req w uid profile w' r.
Proof.
  intros [[msgs Hl] Hs]. unfold serve in Hs.
  destruct (method req =? "OPTIONS")%string; [discriminate|].
  destruct (chat env req w) as [w1 [e|r1]] eqn:Hc; [discriminate|].
  injection Hs as <- <-.
  destruct (chat_ok_inv _ _ _ _ _ Hc) as (msgs' & uid' & profile' & Hl' & Ho).
  rewrite Hl in Hl'. injection Hl' as <- <- <-. exact Ho.
Qed.

(** A validated, authenticated request that passes the balance check
    completes as soon as the LLM endpoint answers. *)
Lemma serve_completes (env : Env) (req : Request) (w : World)
  (msgs : list ChatMessage) (uid : string) (profile : ProfileRow) :
  (method req =? "OPTIONS")%string = false ->
  load_profile env req w = (w, inr (msgs, uid, profile)) ->
  (boost_flag req = true -> 10 <= reward_points profile) ->
  gemini_answers env (boost_flag req) msgs ->
  exists w' r, completes env req w uid profile w' r.
Proof.
  intros Hm Hl Hb Hg.
  destruct (ask_gemini_complete env (boost_flag req) msgs w Hg)
    as (k & [[ai tok] rt] & Hask).
  assert (Hbal : boost_flag req && (reward_points profile <? 10) = false).
  { destruct (boost_flag req); [|reflexivity]. cbn.
    apply Z.ltb_ge. auto. }
  assert (exists w' r, chat env req w = (w', inr r)) as (w' & r & Hc).
  { unfold chat. unfold bind at 1. rewrite Hl.
    unfold bind at 1. rewrite Hbal. unfold ret at 1.
    unfold bind at 1. rewrite Hask.
    unfold bind at 1. rewrite record_rewards_run.
    unfold bind at 1.
    match goal with
    | |- context [store_messages ?a ?b ?c ?d ?e ?f ?g] =>
        destruct (store_messages_run a b c d e f g) as (w2 & -> & _)
    end.
    unfold ret. eauto. }
  exists w', r. split; [eauto|]. unfold serve. rewrite Hm, Hc. reflexivity.
Qed.

(** A run of the [try] block that throws has written to no table. *)
Lemma chat_err_inv (env : Env) (req : Request) (w w' : World) (e : string) :
  chat env req w = (w', inl e) ->
  profiles w' = profiles w /\
  reward_transactions w' = reward_transactions w /\
  message_rows w' = message_rows w /\
  conversations w' = conversations w.
Proof.
  unfold chat. unfold bind at 1.
  destruct (load_profile env req w) as [w0 [e0|[[msgs uid] profile]]] eqn:Hload;
    pose proof (load_profile_state _ _ _ _ _ Hload) as ->.
  { intros [= <- _]. auto. }
  unfold bind at 1.
  destruct (boost_flag req && (reward_points profile <? 10)).
  { unfold throw. intros [= <- _]. auto. }
  unfold ret at 1. unfold bind at 1.
  destruct (ask_gemini env (boost_flag req) msgs w) as [w1 [e1|[[ai tokens] rt]]] eqn:Hask.
  - intros [= <- _]. revert Hask.
    unfold ask_gemini, fetch_gemini. run_monad.
    destruct (truthy (GOOGLE_AI_API_KEY env)) as [k|]; [|intros [= <- _]; auto].
    destruct (ok _); [|intros [= <- _]; auto].
    destruct (candidates _) as [[|c cs]|]; intros [= <- _]; auto.
  - unfold bind at 1. rewrite record_rewards_run.
    unfold bind at 1.
    match goal with
    | |- context [store_messages ?a ?b ?c ?d ?e ?f ?g] =>
        destruct (store_messages_run a b c d e f g) as (w2 & -> & _)
    end.
    unfold ret. discriminate.
Qed.

(** One invocation either leaves [profiles] alone or rewrites the rows of
    the caller from the single row it read. *)
Lemma serve_profiles (env : Env) (req : Request) (w : World) :
  profiles (fst (serve env req w)) = profiles w \/
  exists uid profile,
    profile_rows uid w = [profile] /\
    (boost_flag req = true -> 10 <= reward_points profile) /\
    profiles (fst (serve env req w)) =
    map (fun row => if (user_id row =? uid)%string
                    then updated_profile profile (today env) (boost_flag req) row
                    else row)
        (profiles w).
Proof.
  unfold serve. destruct (method req =? "OPTIONS")%string; [now left|].
  destruct (chat env req w) as [w1 [e|r]] eqn:Hc; cbn [fst].
  - left. now apply chat_err_inv in Hc.
  - right. destruct (chat_ok_inv _ _ _ _ _ Hc) as (msgs & uid & profile & _ & Ho).
    exists uid, profile. split; [apply Ho|]. split; apply Ho.
Qed.

(** After one invocation the single row of [u] is still single; it is the
    same row, or the row the invocation computed from it. *)
Lemma serve_single_row (env : Env) (req : Request) (w : World)
  (u : string) (p : ProfileRow) :
  profile_rows u w = [p] ->
  profile_rows u (fst (serve env req w)) = [p] \/
  ((boost_flag req = true -> 10 <= reward_points p) /\
   profile_rows u (fst (serve env req w)) =
   [updated_profile p (today env) (boost_flag req) p]).
Proof.
  intros Hrow.
  destruct (serve_profiles env req w) as [Heq|(uid & profile & Hrow' & Hbal & Heq)].
  - left. unfold profile_rows in *. now rewrite Heq.
  - assert (Hu : user_id p = u).
    { apply (profile_rows_user u w). rewrite Hrow. now left. }
    unfold profile_rows. rewrite Heq, filter_map_same_key.
    2:{ intros row. destruct (user_id row =? uid)%string; reflexivity. }
    fold (profile_rows u w). rewrite Hrow. cbn [map].
    destruct (String.eqb_spec (user_id p) uid) as [E|E].
    + assert (profile = p) as ->.
      { rewrite <- E, Hu, Hrow in Hrow'. congruence. }
      right. split; [assumption|reflexivity].
    + now left.
Qed.

(* ================================================================== *)
(** ** The calculation *)

Lemma isNewDay_same (t : CalDate) : isNewDay (Some t) t = false.
Proof. unfold isNewDay. now rewrite date_eqb_refl. Qed.

Lemma isNewDay_other (l t : CalDate) : l <> t -> isNewDay (Some l) t = true.
Proof.
  intros Hne. unfold isNewDay. destruct (date_eqb l t) eqn:E; [|reflexivity].
  apply date_eqb_eq in E. contradiction.
Qed.

(** The test on milliseconds can only succeed one day number apart. *)
Lemma isConsecutiveDay_days (l t : CalDate) :
  isConsecutiveDay (Some l) t = true -> days_between l t = 1.
Proof.
  unfold isConsecutiveDay, getTime, days_between, msPerDay.
  destruct (Date_valid t), (Date_valid l); try discriminate.
  rewrite Z.eqb_eq. lia.
Qed.

Lemma isConsecutiveDay_valid (l t : CalDate) :
  Date_valid l = true -> Date_valid t = true ->
  isConsecutiveDay (Some l) t = (days_between l t =? 1).
Proof.
  intros Hl Ht. unfold isConsecutiveDay.
  rewrite (getTime_valid _ Hl), (getTime_valid _ Ht).
  unfold days_between, msPerDay.
  destruct (Z.eqb_spec (MakeDay t - MakeDay l) 1);
    [apply Z.eqb_eq|apply Z.eqb_neq]; lia.
Qed.

Lemma days_between_self (t : CalDate) : days_between t t = 0.
Proof. unfold days_between. lia. Qed.

(** First message ever. *)
Lemma streak_bonus_first (p : ProfileRow) (t : CalDate) :
  last_message_date p = None -> streak_bonus p t = (1, 1).
Proof. unfold streak_bonus. now intros ->. Qed.

(** Same-day repeat. *)
Lemma streak_bonus_same_day (p : ProfileRow) (t : CalDate) :
  last_message_date p = Some t -> streak_bonus p t = (1, daily_streak p).
Proof. unfold streak_bonus. intros ->. now rewrite isNewDay_same. Qed.

(** The day after the last message. *)
Lemma streak_bonus_consecutive (p : ProfileRow) (l t : CalDate) :
  last_message_date p = Some l -> isConsecutiveDay (Some l) t = true ->
  streak_bonus p t = (6, daily_streak p + 1).
Proof.
  unfold streak_bonus. intros -> Hc. rewrite Hc.
  rewrite isNewDay_other; [reflexivity|].
  intros ->. apply isConsecutiveDay_days in Hc.
  rewrite days_between_self in Hc. discriminate.
Qed.

(** Another day, not the day after the last message. *)
Lemma streak_bonus_broken (p : ProfileRow) (l t : CalDate) :
  last_message_date p = Some l -> l <> t -> isConsecutiveDay (Some l) t = false ->
  streak_bonus p t = (1, 1).
Proof.
  unfold streak_bonus. intros -> Hne ->. now rewrite isNewDay_other.
Qed.

Lemma not_consecutive (l t : CalDate) :
  days_between l t <> 1 -> isConsecutiveDay (Some l) t = false.
Proof.
  intros Hd. destruct (isConsecutiveDay (Some l) t) eqn:E; [|reflexivity].
  apply isConsecutiveDay_days in E. contradiction.
Qed.

Lemma pointsEarned_cases (p : ProfileRow) (t : CalDate) :
  pointsEarned p t = 1 \/ pointsEarned p t = 6.
Proof.
  unfold pointsEarned, streak_bonus.
  destruct (isNewDay _ t); [|now left].
  destruct (isConsecutiveDay _ t); [now right|].
  destruct (last_message_date p); now left.
Qed.

Lemma pointChange_cases (b : bool) (p : ProfileRow) (t : CalDate) :
  let d := pointChange b (pointsEarned p t) in
  d = -9 \/ d = -4 \/ d = 1 \/ d = 6.
Proof.
  cbv zeta. unfold pointChange.
  destruct (pointsEarned_cases p t) as [-> | ->], b; auto.
Qed.

Lemma pointChange_nonzero (b : bool) (p : ProfileRow) (t : CalDate) :
  negb (pointChange b (pointsEarned p t) =? 0) = true.
Proof.
  destruct (pointChange_cases b p t) as [H|[H|[H|H]]]; rewrite H; reflexivity.
Qed.

(** A balance that passes the check of the boost stays positive. *)
Lemma balance_after_positive (b : bool) (p : ProfileRow) (t : CalDate) :
  0 <= reward_points p ->
  (b = true -> 10 <= reward_points p) ->
  1 <= reward_points p + pointChange b (pointsEarned p t).
Proof.
  intros H0 Hb. unfold pointChange.
  destruct (pointsEarned_cases p t) as [-> | ->], b;
    try specialize (Hb eq_refl); lia.
Qed.

(** Every completed interaction appends exactly its ledger row. *)
Lemma completes_ledger (env : Env) (req : Request) (w : World) (uid : string)
  (profile : ProfileRow) (w' : World) (r : ChatResponse) :
  completes env req w uid profile w' r ->
  reward_transactions w' =
  (reward_transactions w ++ [ledger_entry uid profile (today env) (boost_flag req)])%list.
Proof.
  intros H. apply completes_outcome in H.
  rewrite (out_ledger _ _ _ _ _ _ _ H), pointChange_nonzero. reflexivity.
Qed.

Lemma completes_netDelta (env : Env) (req : Request) (w : World) (uid : string)
  (profile : ProfileRow) (w' : World) (r : ChatResponse) :
  completes env req w uid profile w' r ->
  netDelta profile r = pointChange (boost_flag req) (pointsEarned profile (today env)).
Proof.
  intros H. apply completes_outcome in H. unfold netDelta.
  rewrite (out_total _ _ _ _ _ _ _ H). lia.
Qed.

Lemma contains_here (sub s : string) : prefix sub s = true -> contains sub s = true.
Proof. intros H. destruct s; cbn [contains]; rewrite H; reflexivity. Qed.

Lemma contains_later (sub : string) (c : ascii) (s : string) :
  contains sub s = true -> contains sub (String c s) = true.
Proof. intros H. cbn [contains]. rewrite H. apply orb_true_r. Qed.

Lemma prefix_app (a b : string) : prefix a (a ++ b)%string = true.
Proof.
  induction a as [|c a IH]; cbn.
  - now destruct b.
  - destruct (ascii_dec c c); [exact IH|contradiction].
Qed.

Lemma contains_app (sub a b : string) : contains sub (a ++ sub ++ b)%string = true.
Proof.
  induction a as [|c a IH]; cbn [append].
  - apply contains_here, prefix_app.
  - now apply contains_later.
Qed.

(* ================================================================== *)
(** ** Properties of the reward procedure *)


(** C1. A request with boost=true whose caller's profile holds fewer than
    10 reward points fails with the insufficient-balance error before any
    effect: the world after the handler is the world before it, so no
    profile field has changed, no reward transaction was created and the
    LLM endpoint was never called. (The request is one that reached the
    balance check: not a preflight, validated, authenticated, and its
    profile row loaded.) *)
Theorem boost_rejected_without_effects (env : Env) (req : Request) (w : World)
  (msgs : list ChatMessage) (uid : string) (profile : ProfileRow) :
  (method req =? "OPTIONS")%string = false ->
  load_profile env req w = (w, inr (msgs, uid, profile)) ->
  boost (body req) = Some true ->
  reward_points profile < 10 ->
  serve env req w =
  (w, Err500 "Insufficient points for boost. Need 10 points."
             "Error: Insufficient points for boost. Need 10 points.").
Proof.
  intros Hm Hl Hb Hlt. unfold serve. rewrite Hm.
  unfold chat. unfold bind at 1. rewrite Hl.
  unfold boost_flag. rewrite Hb.
  apply Z.ltb_lt in Hlt. rewrite Hlt. reflexivity.
Qed.

Lemma boost_rejected_without_effects_witness :
  serve (env_on (mkDate 2024 3 10)) (request true)
        (world_of (profile_of 9 3 (Some (mkDate 2024 3 10)) 10)) =
  (world_of (profile_of 9 3 (Some (mkDate 2024 3 10)) 10),
   Err500 "Insufficient points for boost. Need 10 points."
          "Error: Insufficient points for boost. Need 10 points.").
Proof.
  apply (boost_rejected_without_effects
           (env_on (mkDate 2024 3 10)) (request true)
           (world_of (profile_of 9 3 (Some (mkDate 2024 3 10)) 10))
           [mkChatMessage user "hi"] "user-1"
           (profile_of 9 3 (Some (mkDate 2024 3 10)) 10)).
  - reflexivity.
  - reflexivity.
  - reflexivity.
  - cbn. lia.
Defined.

(** C2. One interaction on a new day: with no previous message date the
    resulting streak is 1 and 1 point is earned; exactly one calendar day
    after the last message the streak grows by 1 and 6 points are earned;
    more than one day after it the streak is reset to 1 and 1 point is
    earned. The streak answered is the streak stored in the profile. *)
Theorem new_day_streak_and_points (env : Env) (req : Request) (w : World)
  (uid : string) (profile : ProfileRow) (w' : World) (r : ChatResponse) :
  completes env req w uid profile w' r ->
  (last_message_date profile = None ->
   r_newStreak r = 1 /\ r_pointsEarned r = 1) /\
  (forall l, last_message_date profile = Some l ->
             Date_valid l = true -> Date_valid (today env) = true ->
             days_between l (today env) = 1 ->
             r_newStreak r = daily_streak profile + 1 /\ r_pointsEarned r = 6) /\
  (forall l, last_message_date profile = Some l ->
             1 < days_between l (today env) ->
             r_newStreak r = 1 /\ r_pointsEarned r = 1) /\
  (exists p', profile_rows uid w' = [p'] /\ daily_streak p' = r_newStreak r).
Proof.
  intros H. apply completes_outcome in H.
  destruct H as [_ _ He Hs _ _ _ Hst _ _]. rewrite He, Hs.
  unfold newStreak, pointsEarned. repeat split.
  - now rewrite streak_bonus_first.
  - now rewrite streak_bonus_first.
  - rewrite (streak_bonus_consecutive _ l); auto.
    rewrite isConsecutiveDay_valid by assumption. now apply Z.eqb_eq.
  - rewrite (streak_bonus_consecutive _ l); auto.
    rewrite isConsecutiveDay_valid by assumption. now apply Z.eqb_eq.
  - rewrite (streak_bonus_broken _ l); auto.
    + intros ->. rewrite days_between_self in *. lia.
    + apply not_consecutive. lia.
  - rewrite (streak_bonus_broken _ l); auto.
    + intros ->. rewrite days_between_self in *. lia.
    + apply not_consecutive. lia.
  - eexists. split; [exact Hst|reflexivity].
Qed.

Lemma new_day_streak_and_points_witness :
  r_newStreak (answer 6 0 4 26) = 3 + 1 /\ r_pointsEarned (answer 6 0 4 26) = 6.
Proof.
  refine (proj1 (proj2
    (new_day_streak_and_points
       (env_on (mkDate 2024 3 1)) (request false)
       (world_of (profile_of 20 3 (Some (mkDate 2024 2 29)) 10))
       "user-1" (profile_of 20 3 (Some (mkDate 2024 2 29)) 10)
       (fst (serve (env_on (mkDate 2024 3 1)) (request false)
                   (world_of (profile_of 20 3 (Some (mkDate 2024 2 29)) 10))))
       (answer 6 0 4 26) _))
    (mkDate 2024 2 29) _ _ _ _).
  - split; [exists [mkChatMessage user "hi"]; reflexivity | reflexivity].
  - reflexivity.
  - reflexivity.
  - reflexivity.
  - reflexivity.
Defined.

(** C3. With a last message date present, [isConsecutiveDay] is true
    exactly when today minus the last message date is one calendar day,
    that is exactly when today is the calendar day after it: the two
    timestamps subtracted are the midnights (UTC) of the two dates, so
    their difference is the calendar-date difference times 86,400,000. *)
Theorem isConsecutiveDay_calendar (lastMessageDate today : CalDate) :
  Date_valid lastMessageDate = true -> Date_valid today = true ->
  (isConsecutiveDay (Some lastMessageDate) today = true <->
   days_between lastMessageDate today = 1) /\
  (isConsecutiveDay (Some lastMessageDate) today = true <->
   today = next_day lastMessageDate).
Proof.
  intros Hl Ht.
  assert (E : isConsecutiveDay (Some lastMessageDate) today = true <->
              days_between lastMessageDate today = 1).
  { rewrite isConsecutiveDay_valid by assumption. apply Z.eqb_eq. }
  split; [exact E|]. rewrite E.
  apply Date_valid_iff in Hl, Ht. apply days_between_one; tauto.
Qed.

Lemma isConsecutiveDay_calendar_witness :
  (isConsecutiveDay (Some (mkDate 2023 12 31)) (mkDate 2024 1 1) = true <->
   days_between (mkDate 2023 12 31) (mkDate 2024 1 1) = 1) /\
  (isConsecutiveDay (Some (mkDate 2023 12 31)) (mkDate 2024 1 1) = true <->
   mkDate 2024 1 1 = next_day (mkDate 2023 12 31)).
Proof.
  apply (isConsecutiveDay_calendar (mkDate 2023 12 31) (mkDate 2024 1 1)).
  - reflexivity.
  - reflexivity.
Defined.

(** C4 as worded fails on a same-day repeat: the last message date
    exists and is not one calendar day before today (it is today), yet
    the streak of 3 is kept, not reset to 1. *)
Lemma same_day_streak_not_reset :
  completes (env_on (mkDate 2024 3 10)) (request false)
            (world_of (profile_of 20 3 (Some (mkDate 2024 3 10)) 10))
            "user-1" (profile_of 20 3 (Some (mkDate 2024 3 10)) 10)
            (mkWorld [profile_of 21 3 (Some (mkDate 2024 3 10)) 11]
                     [mkTransaction "user-1" 1 "message" "Message sent"]
                     [] []
                     [mkGeminiCall "key"
                        (geminiMessages false [mkChatMessage user "hi"])])
            (answer 1 0 3 21) /\
  days_between (mkDate 2024 3 10) (mkDate 2024 3 10) <> 1 /\
  r_newStreak (answer 1 0 3 21) <> 1.
Proof.
  split; [|split].
  - split; [exists [mkChatMessage user "hi"]; reflexivity | reflexivity].
  - discriminate.
  - discriminate.
Qed.

(** C4, amended. The streak is reset to 1 when the last message date
    exists, is not today and is not exactly one calendar day before
    today; it is left unchanged when the last message date is today; it
    grows by 1 when exactly one day elapsed; it starts at 1 on the first
    interaction ever. *)
Theorem streak_reset_rule (env : Env) (req : Request) (w : World)
  (uid : string) (profile : ProfileRow) (w' : World) (r : ChatResponse) :
  completes env req w uid profile w' r ->
  (forall l, last_message_date profile = Some l ->
             l <> today env -> days_between l (today env) <> 1 ->
             r_newStreak r = 1) /\
  (last_message_date profile = Some (today env) ->
   r_newStreak r = daily_streak profile) /\
  (forall l, last_message_date profile = Some l ->
             Date_valid l = true -> Date_valid (today env) = true ->
             days_between l (today env) = 1 ->
             r_newStreak r = daily_streak profile + 1) /\
  (last_message_date profile = None -> r_newStreak r = 1) /\
  (exists p', profile_rows uid w' = [p'] /\ daily_streak p' = r_newStreak r).
Proof.
  intros H. apply completes_outcome in H.
  destruct H as [_ _ _ Hs _ _ _ Hst _ _]. rewrite Hs.
  unfold newStreak. repeat split.
  - intros l Hl Hne Hd.
    rewrite (streak_bonus_broken _ l); auto using not_consecutive.
  - intros Hl. now rewrite streak_bonus_same_day.
  - intros l Hl Vl Vt Hd. rewrite (streak_bonus_consecutive _ l); auto.
    rewrite isConsecutiveDay_valid by assumption. now apply Z.eqb_eq.
  - intros Hl. now rewrite streak_bonus_first.
  - eexists. split; [exact Hst|reflexivity].
Qed.

Lemma streak_reset_rule_witness :
  r_newStreak (answer 1 0 1 21) = 1.
Proof.
  refine (proj1
    (streak_reset_rule
       (env_on (mkDate 2024 3 10)) (request false)
       (world_of (profile_of 20 3 (Some (mkDate 2024 3 7)) 10))
       "user-1" (profile_of 20 3 (Some (mkDate 2024 3 7)) 10)
       (fst (serve (env_on (mkDate 2024 3 10)) (request false)
                   (world_of (profile_of 20 3 (Some (mkDate 2024 3 7)) 10))))
       (answer 1 0 1 21) _)
    (mkDate 2024 3 7) _ _ _).
  - split; [exists [mkChatMessage user "hi"]; reflexivity | reflexivity].
  - reflexivity.
  - discriminate.
  - discriminate.
Defined.

(** One invocation on day [d] keeps, for a user whose single profile row
    is already dated [d], the row single, dated [d] and with its streak. *)
Lemma serve_same_day_streak (env : Env) (req : Request) (w : World)
  (u : string) (p : ProfileRow) :
  profile_rows u w = [p] ->
  last_message_date p = Some (today env) ->
  exists p',
    profile_rows u (fst (serve env req w)) = [p'] /\
    user_id p' = user_id p /\
    daily_streak p' = daily_streak p /\
    last_message_date p' = Some (today env).
Proof.
  intros Hrow Hlast.
  destruct (serve_single_row env req w u p Hrow) as [Heq|[_ Heq]].
  - exists p. auto.
  - eexists. split; [exact Heq|].
    cbn [updated_profile user_id daily_streak last_message_date].
    unfold newStreak. rewrite streak_bonus_same_day by assumption.
    auto.
Qed.

(** C5. A profile whose last message date is today keeps its streak and
    earns 1 point; hence any number of invocations within that day (by
    this or any other caller, accepted or rejected) leaves the profile row
    single, dated today and with the same streak: of its reward columns
    only the points and the message count can change. *)
Theorem same_day_streak_unchanged (calls : list (Env * Request)) (w : World)
  (d : CalDate) (uid : string) (p : ProfileRow) :
  Forall (fun call => today (fst call) = d) calls ->
  profile_rows uid w = [p] ->
  last_message_date p = Some d ->
  (forall env req w' r,
     today env = d -> completes env req w uid p w' r ->
     r_newStreak r = daily_streak p /\ r_pointsEarned r = 1 /\
     exists p', profile_rows uid w' = [p'] /\ daily_streak p' = daily_streak p) /\
  exists p',
    profile_rows uid (serve_all calls w) = [p'] /\
    user_id p' = user_id p /\
    daily_streak p' = daily_streak p /\
    last_message_date p' = Some d.
Proof.
  intros Hday Hrow Hlast. split.
  - intros env req w' r <- Hc. apply completes_outcome in Hc.
    destruct Hc as [_ _ He Hs _ _ _ Hst _ _].
    assert (Hb : streak_bonus p (today env) = (1, daily_streak p))
      by now apply streak_bonus_same_day.
    rewrite He, Hs. unfold pointsEarned, newStreak. rewrite Hb. cbn [fst snd].
    split; [reflexivity|]. split; [reflexivity|].
    eexists. split; [exact Hst|].
    cbn [updated_profile daily_streak]. unfold newStreak. now rewrite Hb.
  - revert w p Hrow Hlast.
    induction Hday as [|[env req] calls Hd _ IH]; intros w p Hrow Hlast.
    + exists p. auto.
    + cbn [fst] in Hd. subst d. cbn [serve_all].
      destruct (serve_same_day_streak env req w uid p Hrow Hlast)
        as (p1 & Hrow1 & Hu1 & Hs1 & Hl1).
      destruct (IH _ _ Hrow1 Hl1) as (p' & Hrow' & Hu' & Hs' & Hl').
      exists p'. repeat split; congruence.
Qed.

Lemma same_day_streak_unchanged_witness :
  exists p',
    profile_rows "user-1"
      (serve_all [(env_on (mkDate 2024 3 10), request false);
                  (env_on (mkDate 2024 3 10), request true);
                  (env_on (mkDate 2024 3 10), request true)]
                 (world_of (profile_of 11 3 (Some (mkDate 2024 3 10)) 10)))
    = [p'] /\
    user_id p' = "user-1" /\
    daily_streak p' = 3 /\
    last_message_date p' = Some (mkDate 2024 3 10).
Proof.
  refine (proj2
    (same_day_streak_unchanged
       [(env_on (mkDate 2024 3 10), request false);
        (env_on (mkDate 2024 3 10), request true);
        (env_on (mkDate 2024 3 10), request true)]
       (world_of (profile_of 11 3 (Some (mkDate 2024 3 10)) 10))
       (mkDate 2024 3 10) "user-1"
       (profile_of 11 3 (Some (mkDate 2024 3 10)) 10) _ _ _)).
  - repeat constructor.
  - reflexivity.
  - reflexivity.
Defined.

(** The guard of the insert, for any point change: a row is appended to
    the ledger exactly when the change is not 0. *)
Lemma record_transaction_guard (uid : string) (b : bool) (earned streakLen change : Z)
  (w : World) :
  record_transaction uid b earned streakLen change w =
  (mkWorld (profiles w)
           (reward_transactions w ++
            (if change =? 0 then []
             else [mkTransaction uid change (transactionType b earned)
                                 (tx_description b earned streakLen)]))
           (message_rows w) (conversations w) (gemini_calls w),
   inr tt).
Proof.
  unfold record_transaction, insert_transaction. run_monad.
  destruct (change =? 0); cbn [negb]; rewrite ?app_nil_r;
    destruct w; reflexivity.
Qed.

(** C6. A completed interaction creates a reward transaction exactly when
    its net point delta is not 0. The row carries the caller and the
    delta; its kind is "boost" when the boost flag was set (whatever the
    sign of the delta), else "streak" when more than 1 point was earned,
    with a description that includes the new streak length, else
    "message". *)
Theorem transaction_iff_nonzero_delta (env : Env) (req : Request) (w : World)
  (uid : string) (profile : ProfileRow) (w' : World) (r : ChatResponse) :
  completes env req w uid profile w' r ->
  (netDelta profile r <> 0 ->
   exists t,
     reward_transactions w' = (reward_transactions w ++ [t])%list /\
     tx_user_id t = uid /\
     points_change t = netDelta profile r /\
     transaction_type t =
       (if boost_flag req then "boost"
        else if r_pointsEarned r >? 1 then "streak" else "message") /\
     (boost_flag req = false -> r_pointsEarned r > 1 ->
      description t =
        ("Daily streak bonus (" ++ number_to_string (r_newStreak r) ++ " days)")%string /\
      contains (number_to_string (r_newStreak r)) (description t) = true)) /\
  (netDelta profile r = 0 -> reward_transactions w' = reward_transactions w).
Proof.
  intros H. pose proof (completes_netDelta _ _ _ _ _ _ _ H) as Hd.
  apply completes_outcome in H.
  destruct H as [_ _ He Hs _ _ _ _ Hl _]. rewrite Hl, Hd, He, Hs.
  split.
  - intros Hnz. apply Z.eqb_neq in Hnz. rewrite Hnz. cbn [negb].
    eexists. split; [reflexivity|].
    cbn [ledger_entry tx_user_id points_change transaction_type description].
    split; [reflexivity|]. split; [reflexivity|]. split; [reflexivity|].
    intros Hb Hgt. unfold tx_description. rewrite Hb.
    apply Z.gtb_gt in Hgt. rewrite Hgt. split; [reflexivity|].
    apply (contains_app _ "Daily streak bonus (" " days)").
  - intros Hz. rewrite Hz. cbn. apply app_nil_r.
Qed.

Lemma transaction_iff_nonzero_delta_witness :
  exists t,
    reward_transactions
      (fst (serve (env_on (mkDate 2024 3 1)) (request false)
                  (world_of (profile_of 20 3 (Some (mkDate 2024 2 29)) 10))))
    = [t] /\
    points_change t = 6 /\
    transaction_type t = "streak" /\
    description t = "Daily streak bonus (4 days)" /\
    contains "4" (description t) = true.
Proof.
  destruct (proj1
    (transaction_iff_nonzero_delta
       (env_on (mkDate 2024 3 1)) (request false)
       (world_of (profile_of 20 3 (Some (mkDate 2024 2 29)) 10))
       "user-1" (profile_of 20 3 (Some (mkDate 2024 2 29)) 10)
       (fst (serve (env_on (mkDate 2024 3 1)) (request false)
                   (world_of (profile_of 20 3 (Some (mkDate 2024 2 29)) 10))))
       (answer 6 0 4 26)
       (conj (ex_intro _ [mkChatMessage user "hi"] eq_refl) eq_refl))
    ltac:(discriminate)) as (t & Hled & _ & Hchange & Hkind & Hdesc).
  exists t. split; [exact Hled|]. split; [exact Hchange|]. split; [exact Hkind|].
  apply Hdesc; reflexivity.
Defined.

(** C7. With boost=true and at least 10 reward points, on a day that is
    not the calendar day after the last message, the request is accepted
    (it completes as soon as the LLM endpoint answers), the net point
    delta is exactly -9 and the transaction recorded is of kind "boost";
    from a balance of exactly 10 the resulting balance is 1. *)
Theorem boost_costs_nine (env : Env) (req : Request) (w : World)
  (msgs : list ChatMessage) (uid : string) (profile : ProfileRow) :
  (method req =? "OPTIONS")%string = false ->
  load_profile env req w = (w, inr (msgs, uid, profile)) ->
  boost_flag req = true ->
  10 <= reward_points profile ->
  (forall l, last_message_date profile = Some l -> days_between l (today env) <> 1) ->
  gemini_answers env true msgs ->
  exists w' r,
    completes env req w uid profile w' r /\
    netDelta profile r = -9 /\
    (exists t,
       reward_transactions w' = (reward_transactions w ++ [t])%list /\
       points_change t = -9 /\ transaction_type t = "boost") /\
    (reward_points profile = 10 ->
     totalPoints r = 1 /\
     exists p', profile_rows uid w' = [p'] /\ reward_points p' = 1).
Proof.
  intros Hm Hl Hb Hrp Hgap Hg.
  destruct (serve_completes env req w msgs uid profile Hm Hl) as (w' & r & Hc);
    [auto | now rewrite Hb |].
  exists w', r. split; [exact Hc|].
  assert (He : pointsEarned profile (today env) = 1).
  { unfold pointsEarned, streak_bonus.
    destruct (last_message_date profile) as [l|] eqn:El; cbn [isNewDay].
    - rewrite (not_consecutive l) by auto. now destruct (negb _).
    - reflexivity. }
  pose proof (completes_netDelta _ _ _ _ _ _ _ Hc) as Hd.
  pose proof (completes_ledger _ _ _ _ _ _ _ Hc) as Hled.
  apply completes_outcome in Hc. destruct Hc as [_ _ _ _ _ Ht _ Hst _ _].
  rewrite Hb, He in *. cbn [pointChange] in *.
  split; [exact Hd|]. split.
  - eexists. split; [exact Hled|].
    unfold ledger_entry; cbn [points_change transaction_type].
    rewrite He. split; reflexivity.
  - intros E. split; [lia|].
    eexists. split; [exact Hst|].
    cbn [updated_profile reward_points]. rewrite He. cbn [pointChange]. lia.
Qed.

Lemma boost_costs_nine_witness :
  exists w' r,
    completes (env_on (mkDate 2024 3 10)) (request true)
              (world_of (profile_of 10 3 (Some (mkDate 2024 3 10)) 7))
              "user-1" (profile_of 10 3 (Some (mkDate 2024 3 10)) 7) w' r /\
    netDelta (profile_of 10 3 (Some (mkDate 2024 3 10)) 7) r = -9 /\
    (exists t,
       reward_transactions w' = ([] ++ [t])%list /\
       points_change t = -9 /\ transaction_type t = "boost") /\
    (10 = 10 ->
     totalPoints r = 1 /\
     exists p', profile_rows "user-1" w' = [p'] /\ reward_points p' = 1).
Proof.
  apply (boost_costs_nine
           (env_on (mkDate 2024 3 10)) (request true)
           (world_of (profile_of 10 3 (Some (mkDate 2024 3 10)) 7))
           [mkChatMessage user "hi"] "user-1"
           (profile_of 10 3 (Some (mkDate 2024 3 10)) 7)).
  - reflexivity.
  - reflexivity.
  - reflexivity.
  - cbn. lia.
  - intros l [= <-]. discriminate.
  - exists "key". split; [reflexivity|]. split; [reflexivity|].
    exists "Hello!", []. reflexivity.
Defined.

(** C8 as worded fails: from a balance that is not negative no
    invocation leads to a negative one, neither in the total that a
    completed interaction answers nor in the row left in [profiles]. *)
Lemma no_negative_balance_from_nonnegative :
  ~ exists env req w uid profile,
      profile_rows uid w = [profile] /\
      0 <= reward_points profile /\
      ((exists w' r, completes env req w uid profile w' r /\ totalPoints r < 0) \/
       (exists p', profile_rows uid (fst (serve env req w)) = [p'] /\
                   reward_points p' < 0)).
Proof.
  intros (env & req & w & uid & profile & Hrow & H0 & Hneg).
  destruct Hneg as [(w' & r & Hc & Hneg)|(p' & Hp' & Hneg)].
  - apply completes_outcome in Hc. destruct Hc as [_ Hb _ _ _ Ht _ _ _ _].
    pose proof (balance_after_positive (boost_flag req) profile (today env) H0 Hb).
    lia.
  - destruct (serve_single_row env req w uid profile Hrow) as [Heq|[Hb Heq]];
      rewrite Heq in Hp'; injection Hp' as <-; [lia|].
    pose proof (balance_after_positive (boost_flag req) profile (today env) H0 Hb).
    cbn [updated_profile reward_points] in Hneg. lia.
Qed.

(** C8, amended. From a balance that is not negative every accepted
    interaction leads to a balance of at least 1 (an accepted boost starts
    from at least 10 points and costs at most 9 net), and whatever the
    outcome of an invocation the balance left in the row is not negative. *)
Theorem accepted_balance_stays_positive (env : Env) (req : Request) (w : World)
  (uid : string) (profile : ProfileRow) :
  profile_rows uid w = [profile] ->
  0 <= reward_points profile ->
  (forall w' r,
     completes env req w uid profile w' r ->
     1 <= totalPoints r /\
     exists p',
       profile_rows uid w' = [p'] /\
       reward_points p' = totalPoints r /\ 1 <= reward_points p') /\
  (exists p',
     profile_rows uid (fst (serve env req w)) = [p'] /\ 0 <= reward_points p').
Proof.
  intros Hrow H0. split.
  - intros w' r Hc.
    apply completes_outcome in Hc. destruct Hc as [_ Hb _ _ _ Ht _ Hst _ _].
    pose proof (balance_after_positive (boost_flag req) profile (today env) H0 Hb).
    split; [lia|]. eexists. split; [exact Hst|].
    cbn [updated_profile reward_points]. lia.
  - destruct (serve_single_row env req w uid profile Hrow) as [Heq|[Hb Heq]];
      eexists; (split; [exact Heq|]); [assumption|].
    pose proof (balance_after_positive (boost_flag req) profile (today env) H0 Hb).
    cbn [updated_profile reward_points]. lia.
Qed.

Lemma accepted_balance_stays_positive_witness :
  1 <= totalPoints (answer 1 10 3 1) /\
  exists p',
    profile_rows "user-1"
      (fst (serve (env_on (mkDate 2024 3 10)) (request true)
                  (world_of (profile_of 10 3 (Some (mkDate 2024 3 10)) 7))))
    = [p'] /\
    reward_points p' = totalPoints (answer 1 10 3 1) /\ 1 <= reward_points p'.
Proof.
  refine (proj1
    (accepted_balance_stays_positive
       (env_on (mkDate 2024 3 10)) (request true)
       (world_of (profile_of 10 3 (Some (mkDate 2024 3 10)) 7))
       "user-1" (profile_of 10 3 (Some (mkDate 2024 3 10)) 7) _ _)
    (fst (serve (env_on (mkDate 2024 3 10)) (request true)
                (world_of (profile_of 10 3 (Some (mkDate 2024 3 10)) 7))))
    (answer 1 10 3 1) _).
  - reflexivity.
  - cbn. lia.
  - split; [exists [mkChatMessage user "hi"]; reflexivity | reflexivity].
Defined.

Lemma consecutive_next_day (l t : CalDate) :
  Date_valid l = true -> Date_valid t = true -> t = next_day l ->
  isConsecutiveDay (Some l) t = true.
Proof.
  intros Vl Vt Hn. rewrite isConsecutiveDay_valid by assumption.
  apply Z.eqb_eq. apply Date_valid_iff in Vl, Vt.
  apply days_between_one; tauto.
Qed.

(** C9. The scenario: a profile with 20 points, a streak of 3, a last
    message yesterday and 10 messages, no boost, today the day after
    yesterday. The interaction answers a streak of 4, 6 points earned and
    a total of 26, stores them, and records one transaction of kind
    "streak" whose description contains "4". *)
Theorem streak_scenario (yesterday : CalDate) (env : Env) (req : Request)
  (w : World) (uid : string) (w' : World) (r : ChatResponse) :
  Date_valid yesterday = true ->
  Date_valid (today env) = true ->
  today env = next_day yesterday ->
  boost_flag req = false ->
  completes env req w uid (mkProfile uid 20 3 (Some yesterday) 10) w' r ->
  r_newStreak r = 4 /\
  r_pointsEarned r = 6 /\
  totalPoints r = 26 /\
  profile_rows uid w' = [mkProfile uid 26 4 (Some (today env)) 11] /\
  (exists t,
     reward_transactions w' = (reward_transactions w ++ [t])%list /\
     points_change t = 6 /\
     transaction_type t = "streak" /\
     description t = "Daily streak bonus (4 days)" /\
     contains "4" (description t) = true).
Proof.
  intros Vy Vt Hnext Hb Hc.
  assert (Hb' : streak_bonus (mkProfile uid 20 3 (Some yesterday) 10) (today env)
                = (6, 4)).
  { rewrite (streak_bonus_consecutive _ yesterday); [reflexivity|reflexivity|].
    now apply consecutive_next_day. }
  pose proof (completes_ledger _ _ _ _ _ _ _ Hc) as Hled.
  apply completes_outcome in Hc. destruct Hc as [_ _ He Hs _ Ht _ Hst _ _].
  unfold ledger_entry, updated_profile, pointsEarned, newStreak in *.
  rewrite Hb' in *. rewrite Hb in *. cbn [fst snd] in *.
  repeat (split; [assumption|]).
  eexists. split; [exact Hled|].
  cbn [points_change transaction_type description].
  repeat split.
Qed.

Lemma streak_scenario_witness :
  r_newStreak (answer 6 0 4 26) = 4 /\
  r_pointsEarned (answer 6 0 4 26) = 6 /\
  totalPoints (answer 6 0 4 26) = 26 /\
  profile_rows "user-1"
    (fst (serve (env_on (mkDate 2025 1 1)) (request false)
                (world_of (mkProfile "user-1" 20 3 (Some (mkDate 2024 12 31)) 10))))
  = [mkProfile "user-1" 26 4 (Some (mkDate 2025 1 1)) 11] /\
  (exists t,
     reward_transactions
       (fst (serve (env_on (mkDate 2025 1 1)) (request false)
                   (world_of (mkProfile "user-1" 20 3 (Some (mkDate 2024 12 31)) 10))))
     = ([] ++ [t])%list /\
     points_change t = 6 /\
     transaction_type t = "streak" /\
     description t = "Daily streak bonus (4 days)" /\
     contains "4" (description t) = true).
Proof.
  apply (streak_scenario (mkDate 2024 12 31) (env_on (mkDate 2025 1 1))
           (request false)
           (world_of (mkProfile "user-1" 20 3 (Some (mkDate 2024 12 31)) 10))
           "user-1").
  - reflexivity.
  - reflexivity.
  - reflexivity.
  - reflexivity.
  - split; [exists [mkChatMessage user "hi"]; reflexivity | reflexivity].
Defined.

(** C10. The net point delta of a completed interaction is -9, -4, 1 or
    6, never 0; so every completed interaction appends exactly one reward
    transaction, which carries that delta. *)
Theorem exactly_one_transaction (env : Env) (req : Request) (w : World)
  (uid : string) (profile : ProfileRow) (w' : World) (r : ChatResponse) :
  completes env req w uid profile w' r ->
  (netDelta profile r = -9 \/ netDelta profile r = -4 \/
   netDelta profile r = 1 \/ netDelta profile r = 6) /\
  netDelta profile r <> 0 /\
  exists t,
    reward_transactions w' = (reward_transactions w ++ [t])%list /\
    points_change t = netDelta profile r.
Proof.
  intros Hc.
  pose proof (completes_netDelta _ _ _ _ _ _ _ Hc) as Hd.
  pose proof (completes_ledger _ _ _ _ _ _ _ Hc) as Hled.
  pose proof (pointChange_cases (boost_flag req) profile (today env)) as Hcases.
  cbv zeta in Hcases. rewrite <- Hd in Hcases.
  split; [exact Hcases|]. split; [lia|].
  eexists. split; [exact Hled|].
  unfold ledger_entry; cbn [points_change]. now rewrite Hd.
Qed.

Lemma exactly_one_transaction_witness :
  (netDelta (profile_of 20 3 (Some (mkDate 2024 2 29)) 10) (answer 6 10 4 16) = -9 \/
   netDelta (profile_of 20 3 (Some (mkDate 2024 2 29)) 10) (answer 6 10 4 16) = -4 \/
   netDelta (profile_of 20 3 (Some (mkDate 2024 2 29)) 10) (answer 6 10 4 16) = 1 \/
   netDelta (profile_of 20 3 (Some (mkDate 2024 2 29)) 10) (answer 6 10 4 16) = 6) /\
  netDelta (profile_of 20 3 (Some (mkDate 2024 2 29)) 10) (answer 6 10 4 16) <> 0 /\
  exists t,
    reward_transactions
      (fst (serve (env_on (mkDate 2024 3 1)) (request true)
                  (world_of (profile_of 20 3 (Some (mkDate 2024 2 29)) 10))))
    = ([] ++ [t])%list /\
    points_change t = netDelta (profile_of 20 3 (Some (mkDate 2024 2 29)) 10)
                               (answer 6 10 4 16).
Proof.
  apply (exactly_one_transaction
           (env_on (mkDate 2024 3 1)) (request true)
           (world_of (profile_of 20 3 (Some (mkDate 2024 2 29)) 10))
           "user-1" (profile_of 20 3 (Some (mkDate 2024 2 29)) 10)).
  split; [exists [mkChatMessage user "hi"]; reflexivity | reflexivity].
Defined.

(* ================================================================== *)
(** ** Beyond the reward procedure: the rest of the handler *)

Lemma store_messages_absent (req : Request) (uid : string) (msgs : list ChatMessage)
  (ai : string) (tokens rt : Z) (w : World) :
  truthy (conversationId (body req)) = None ->
  store_messages req uid msgs ai tokens rt w = (w, inr tt).
Proof. unfold store_messages. now intros ->. Qed.

Lemma filter_length_two_more (cid : string) (rows : list MessageRow) (m1 m2 : MessageRow) :
  conversation_id m1 = cid -> conversation_id m2 = cid ->
  List.length (filter (fun m => (conversation_id m =? cid)%string)
                      ((rows ++ [m1]) ++ [m2])) =
  S (S (List.length (filter (fun m => (conversation_id m =? cid)%string) rows))).
Proof.
  intros H1 H2. rewrite !filter_app. cbn [filter].
  rewrite H1, H2, String.eqb_refl, !length_app. cbn [List.length]. lia.
Qed.

(** With a conversation id the two rows of the exchange are appended, and
    the title is written exactly when the conversation had no row. *)
Lemma store_messages_present (req : Request) (uid : string) (msgs : list ChatMessage)
  (ai : string) (tokens rt : Z) (w : World) (cid : string) :
  truthy (conversationId (body req)) = Some cid ->
  store_messages req uid msgs ai tokens rt w =
  (mkWorld (profiles w) (reward_transactions w)
           ((message_rows w
             ++ [mkMessageRow cid uid (content (last msgs (mkChatMessage user "")))
                              "user" None None])
            ++ [mkMessageRow cid uid ai "assistant" (Some tokens) (Some rt)])
           (match conversation_rows cid w with
            | [] => map (fun c => if (conv_id c =? cid)%string
                                  then mkConversation (conv_id c)
                                         (conversation_title
                                            (content (hd (mkChatMessage user "") msgs)))
                                  else c)
                        (conversations w)
            | _ :: _ => conversations w
            end)
           (gemini_calls w),
   inr tt).
Proof.
  intros Hc. unfold store_messages, insert_message, count_messages, update_title.
  rewrite Hc. run_monad.
  cbn [profiles reward_transactions message_rows conversations gemini_calls].
  rewrite filter_length_two_more by reflexivity.
  unfold conversation_rows.
  destruct (filter _ (message_rows w)) as [|m rows]; reflexivity.
Qed.

(** A run of the [try] block that returns, in full: what it read, what it
    answers and what it stored for the conversation. *)
Lemma chat_ok_full (env : Env) (req : Request) (w w' : World) (r : ChatResponse) :
  chat env req w = (w', inr r) ->
  exists msgs uid profile k c cs,
    load_profile env req w = (w, inr (msgs, uid, profile)) /\
    truthy (GOOGLE_AI_API_KEY env) = Some k /\
    ok (gemini_api env (mkGeminiCall k (geminiMessages (boost_flag req) msgs))) = true /\
    candidates (gemini_api env (mkGeminiCall k (geminiMessages (boost_flag req) msgs)))
    = Some (c :: cs) /\
    response r = c /\
    tokensUsed r =
      match totalTokenCount
              (gemini_api env (mkGeminiCall k (geminiMessages (boost_flag req) msgs))) with
      | Some n => n
      | None => 0
      end /\
    responseTime r = endTime env - startTime env /\
    gemini_calls w' =
      (gemini_calls w ++ [mkGeminiCall k (geminiMessages (boost_flag req) msgs)])%list /\
    message_rows w' =
      (message_rows w ++
       match truthy (conversationId (body req)) with
       | Some cid => exchange cid uid msgs r
       | None => []
       end)%list /\
    conversations w' =
      match truthy (conversationId (body req)) with
      | Some cid =>
          match conversation_rows cid w with
          | [] => map (fun c => if (conv_id c =? cid)%string
                                then mkConversation (conv_id c)
                                       (conversation_title
                                          (content (hd (mkChatMessage user "") msgs)))
                                else c)
                      (conversations w)
          | _ :: _ => conversations w
          end
      | None => conversations w
      end.
Proof.
  unfold chat. unfold bind at 1.
  destruct (load_profile env req w) as [w0 [e|[[msgs uid] profile]]] eqn:Hload;
    [discriminate|].
  pose proof (load_profile_state _ _ _ _ _ Hload) as ->.
  unfold bind at 1.
  destruct (boost_flag req && (reward_points profile <? 10)); [discriminate|].
  unfold ret at 1. unfold bind at 1.
  destruct (ask_gemini env (boost_flag req) msgs w) as [w1 [e|[[ai tokens] rt]]] eqn:Hask;
    [discriminate|].
  revert Hask. unfold ask_gemini, fetch_gemini.
  unfold bind at 1.
  destruct (truthy (GOOGLE_AI_API_KEY env)) as [k|] eqn:Hk; [|discriminate].
  run_monad.
  destruct (ok _) eqn:Hok; [|discriminate].
  destruct (candidates _) as [[|c cs]|] eqn:Hcand; try discriminate.
  intros [= <- <- <- <-].
  rewrite record_rewards_run.
  destruct (truthy (conversationId (body req))) as [cid|] eqn:Hcid.
  - rewrite (store_messages_present _ _ _ _ _ _ _ cid Hcid).
    intros [= <- <-].
    exists msgs, uid, profile, k, c, cs.
    cbn [response tokensUsed responseTime gemini_calls message_rows conversations
         conversation_rows].
    unfold exchange, conversation_rows.
    cbn [response tokensUsed responseTime message_rows].
    rewrite <- app_assoc. cbn [app].
    repeat (split; [reflexivity || assumption|]). reflexivity.
  - rewrite (store_messages_absent _ _ _ _ _ _ _ Hcid).
    intros [= <- <-].
    exists msgs, uid, profile, k, c, cs.
    cbn [response tokensUsed responseTime gemini_calls message_rows conversations].
    rewrite app_nil_r.
    repeat (split; [reflexivity || assumption|]). reflexivity.
Qed.

(** X1. A request without messages (the key absent, or an empty list) is
    answered 500 "No messages provided" before anything else is looked
    at: whatever its authorization header, nothing is read or written. *)
Theorem empty_messages_rejected (env : Env) (req : Request) (w : World) :
  (method req =? "OPTIONS")%string = false ->
  messages (body req) = None \/ messages (body req) = Some [] ->
  serve env req w =
  (w, Err500 "No messages provided" "Error: No messages provided").
Proof.
  intros Hm Hmsgs. unfold serve. rewrite Hm.
  unfold chat, load_profile. unfold bind at 1. unfold bind at 1.
  destruct Hmsgs as [-> | ->]; reflexivity.
Qed.

Lemma empty_messages_rejected_witness :
  serve (env_on (mkDate 2024 3 10))
        (mkRequest "POST" None (mkChatRequest (Some []) None (Some true)))
        (world_of (profile_of 20 3 None 0)) =
  (world_of (profile_of 20 3 None 0),
   Err500 "No messages provided" "Error: No messages provided").
Proof.
  apply (empty_messages_rejected
           (env_on (mkDate 2024 3 10))
           (mkRequest "POST" None (mkChatRequest (Some []) None (Some true)))
           (world_of (profile_of 20 3 None 0))).
  - reflexivity.
  - right. reflexivity.
Defined.

(** X2. A request with messages but without a usable identity is rejected
    with nothing read or written: 500 "No authorization header" when the
    header is absent or empty, 500 "Authentication failed" when the
    identity service does not know the token of the header. *)
Theorem unauthenticated_rejected (env : Env) (req : Request) (w : World)
  (m : ChatMessage) (ms : list ChatMessage) :
  (method req =? "OPTIONS")%string = false ->
  messages (body req) = Some (m :: ms) ->
  (truthy (authorization req) = None ->
   serve env req w =
   (w, Err500 "No authorization header" "Error: No authorization header")) /\
  (forall h, truthy (authorization req) = Some h ->
             getUser env (replace_first "Bearer " "" h) = None ->
             serve env req w =
             (w, Err500 "Authentication failed" "Error: Authentication failed")).
Proof.
  intros Hm Hmsgs. split.
  - intros Hh. unfold serve. rewrite Hm.
    unfold chat, load_profile. unfold bind at 1. unfold bind at 1.
    rewrite Hmsgs. run_monad. rewrite Hh. reflexivity.
  - intros h Hh Hu. unfold serve. rewrite Hm.
    unfold chat, load_profile. unfold bind at 1. unfold bind at 1.
    rewrite Hmsgs. run_monad. rewrite Hh, Hu. reflexivity.
Qed.

Lemma unauthenticated_rejected_witness :
  serve (env_on (mkDate 2024 3 10))
        (mkRequest "POST" (Some "Bearer stolen")
                   (mkChatRequest (Some [mkChatMessage user "hi"]) None None))
        (world_of (profile_of 20 3 None 0)) =
  (world_of (profile_of 20 3 None 0),
   Err500 "Authentication failed" "Error: Authentication failed").
Proof.
  refine (proj2
    (unauthenticated_rejected
       (env_on (mkDate 2024 3 10))
       (mkRequest "POST" (Some "Bearer stolen")
                  (mkChatRequest (Some [mkChatMessage user "hi"]) None None))
       (world_of (profile_of 20 3 None 0))
       (mkChatMessage user "hi") [] _ _) "Bearer stolen" _ _).
  - reflexivity.
  - reflexivity.
  - reflexivity.
  - reflexivity.
Defined.

(** X3. An authenticated caller is served only if [profiles] holds
    exactly one row for the caller: with no row, or with several, the
    answer is 500 "Failed to fetch user profile" and nothing is written
    and the LLM is not called. *)
Theorem profile_must_be_single (env : Env) (req : Request) (w : World)
  (m : ChatMessage) (ms : list ChatMessage) (h uid : string) :
  (method req =? "OPTIONS")%string = false ->
  messages (body req) = Some (m :: ms) ->
  truthy (authorization req) = Some h ->
  getUser env (replace_first "Bearer " "" h) = Some uid ->
  List.length (profile_rows uid w) <> 1%nat ->
  serve env req w =
  (w, Err500 "Failed to fetch user profile" "Error: Failed to fetch user profile").
Proof.
  intros Hm Hmsgs Hh Hu Hrows. unfold serve. rewrite Hm.
  unfold chat, load_profile. unfold bind at 1. unfold bind at 1.
  rewrite Hmsgs. run_monad. rewrite Hh, Hu, select_profile_run.
  destruct (profile_rows uid w) as [|p [|q l]]; try reflexivity.
  cbn in Hrows. congruence.
Qed.

Lemma profile_must_be_single_witness :
  serve (env_on (mkDate 2024 3 10)) (request false)
        (mkWorld [profile_of 20 3 None 0; profile_of 5 1 None 0] [] [] [] []) =
  (mkWorld [profile_of 20 3 None 0; profile_of 5 1 None 0] [] [] [] [],
   Err500 "Failed to fetch user profile" "Error: Failed to fetch user profile").
Proof.
  apply (profile_must_be_single
           (env_on (mkDate 2024 3 10)) (request false)
           (mkWorld [profile_of 20 3 None 0; profile_of 5 1 None 0] [] [] [] [])
           (mkChatMessage user "hi") [] "Bearer token-1" "user-1").
  - reflexivity.
  - reflexivity.
  - reflexivity.
  - reflexivity.
  - cbn. discriminate.
Defined.

(** X4. When the key of the LLM endpoint is not configured (absent or
    empty), a request that passed the balance check is answered 500
    "Google AI API key not configured": the endpoint is not called, no
    points are earned and no boost is paid. *)
Theorem missing_api_key_rejected (env : Env) (req : Request) (w : World)
  (msgs : list ChatMessage) (uid : string) (profile : ProfileRow) :
  (method req =? "OPTIONS")%string = false ->
  load_profile env req w = (w, inr (msgs, uid, profile)) ->
  (boost_flag req = true -> 10 <= reward_points profile) ->
  truthy (GOOGLE_AI_API_KEY env) = None ->
  serve env req w =
  (w, Err500 "Google AI API key not configured"
             "Error: Google AI API key not configured").
Proof.
  intros Hm Hl Hb Hk. unfold serve. rewrite Hm.
  unfold chat. unfold bind at 1. rewrite Hl. unfold bind at 1.
  assert (Hbal : boost_flag req && (reward_points profile <? 10) = false).
  { destruct (boost_flag req); [|reflexivity]. cbn. apply Z.ltb_ge. auto. }
  rewrite Hbal. unfold ret at 1. unfold bind at 1.
  unfold ask_gemini. unfold bind at 1. rewrite Hk. reflexivity.
Qed.

Lemma missing_api_key_rejected_witness :
  serve (mkEnv (getUser (env_on (mkDate 2024 3 10))) (Some "")
               (gemini_api (env_on (mkDate 2024 3 10))) 0 1 (mkDate 2024 3 10))
        (request true)
        (world_of (profile_of 20 3 None 0)) =
  (world_of (profile_of 20 3 None 0),
   Err500 "Google AI API key not configured"
          "Error: Google AI API key not configured").
Proof.
  apply (missing_api_key_rejected
           (mkEnv (getUser (env_on (mkDate 2024 3 10))) (Some "")
                  (gemini_api (env_on (mkDate 2024 3 10))) 0 1 (mkDate 2024 3 10))
           (request true) (world_of (profile_of 20 3 None 0))
           [mkChatMessage user "hi"] "user-1" (profile_of 20 3 None 0)).
  - reflexivity.
  - reflexivity.
  - intros _. cbn. lia.
  - reflexivity.
Defined.

(** X5. When the LLM endpoint fails (a status that is not ok, or an
    answer without candidates), the request is answered 500 ("Gemini API
    error: <status>", resp. "No response from Gemini API"). The call was
    made, once, but no table is written: no points are earned and a
    requested boost is not paid. *)
Theorem gemini_failure_costs_nothing (env : Env) (req : Request) (w : World)
  (msgs : list ChatMessage) (uid : string) (profile : ProfileRow) (k : string) :
  (method req =? "OPTIONS")%string = false ->
  load_profile env req w = (w, inr (msgs, uid, profile)) ->
  (boost_flag req = true -> 10 <= reward_points profile) ->
  truthy (GOOGLE_AI_API_KEY env) = Some k ->
  let call := mkGeminiCall k (geminiMessages (boost_flag req) msgs) in
  let w1 := mkWorld (profiles w) (reward_transactions w) (message_rows w)
                    (conversations w) (gemini_calls w ++ [call]) in
  (ok (gemini_api env call) = false ->
   serve env req w =
   (w1, Err500 ("Gemini API error: " ++ number_to_string (status (gemini_api env call)))
               ("Error: Gemini API error: "
                ++ number_to_string (status (gemini_api env call))))) /\
  (ok (gemini_api env call) = true ->
   candidates (gemini_api env call) = None \/
   candidates (gemini_api env call) = Some [] ->
   serve env req w =
   (w1, Err500 "No response from Gemini API" "Error: No response from Gemini API")).
Proof.
  intros Hm Hl Hb Hk call w1.
  assert (Hbal : boost_flag req && (reward_points profile <? 10) = false).
  { destruct (boost_flag req); [|reflexivity]. cbn. apply Z.ltb_ge. auto. }
  assert (Hrun : forall res,
             ask_gemini env (boost_flag req) msgs w = (w1, inl res) ->
             serve env req w =
             (w1, Err500 (match res with EmptyString => "Internal server error"
                                    | _ => res end)
                         ("Error: " ++ res))).
  { intros res Hask. unfold serve. rewrite Hm.
    unfold chat. unfold bind at 1. rewrite Hl. unfold bind at 1.
    rewrite Hbal. unfold ret at 1. unfold bind at 1. rewrite Hask. reflexivity. }
  split.
  - intros Hok. apply (Hrun ("Gemini API error: " ++ _)%string).
    unfold ask_gemini, fetch_gemini. run_monad. rewrite Hk.
    fold call. rewrite Hok. reflexivity.
  - intros Hok Hc. apply (Hrun "No response from Gemini API").
    unfold ask_gemini, fetch_gemini. run_monad. rewrite Hk.
    fold call. rewrite Hok. destruct Hc as [-> | ->]; reflexivity.
Qed.

Lemma gemini_failure_costs_nothing_witness :
  serve (mkEnv (getUser (env_on (mkDate 2024 3 10))) (Some "key")
               (fun _ => mkGeminiResponse false 503 None None)
               0 1 (mkDate 2024 3 10))
        (request true)
        (world_of (profile_of 20 3 None 0)) =
  (mkWorld [profile_of 20 3 None 0] [] [] []
           [mkGeminiCall "key" (geminiMessages true [mkChatMessage user "hi"])],
   Err500 "Gemini API error: 503" "Error: Gemini API error: 503").
Proof.
  refine (proj1
    (gemini_failure_costs_nothing
       (mkEnv (getUser (env_on (mkDate 2024 3 10))) (Some "key")
              (fun _ => mkGeminiResponse false 503 None None)
              0 1 (mkDate 2024 3 10))
       (request true) (world_of (profile_of 20 3 None 0))
       [mkChatMessage user "hi"] "user-1" (profile_of 20 3 None 0) "key"
       _ _ _ _) _).
  - reflexivity.
  - reflexivity.
  - intros _. cbn. lia.
  - reflexivity.
  - reflexivity.
Defined.

(* ================================================================== *)
(** ** Invariants of sequences of invocations *)

Lemma chat_err_calls (env : Env) (req : Request) (w w' : World) (e : string) :
  chat env req w = (w', inl e) ->
  gemini_calls w' = gemini_calls w \/
  exists c, gemini_calls w' = (gemini_calls w ++ [c])%list.
Proof.
  unfold chat. unfold bind at 1.
  destruct (load_profile env req w) as [w0 [e0|[[msgs uid] profile]]] eqn:Hload;
    pose proof (load_profile_state _ _ _ _ _ Hload) as ->.
  { intros [= <- _]. auto. }
  unfold bind at 1.
  destruct (boost_flag req && (reward_points profile <? 10)).
  { unfold throw. intros [= <- _]. auto. }
  unfold ret at 1. unfold bind at 1.
  destruct (ask_gemini env (boost_flag req) msgs w) as [w1 [e1|[[ai tokens] rt]]] eqn:Hask.
  - intros [= <- _]. revert Hask.
    unfold ask_gemini, fetch_gemini. run_monad.
    destruct (truthy (GOOGLE_AI_API_KEY env)) as [k|]; [|intros [= <- _]; auto].
    destruct (ok _); [|intros [= <- _]; right; eexists; reflexivity].
    destruct (candidates _) as [[|c cs]|]; intros [= <- _]; right; eexists; reflexivity.
  - unfold bind at 1. rewrite record_rewards_run.
    unfold bind at 1.
    match goal with
    | |- context [store_messages ?a ?b ?c ?d ?e ?f ?g] =>
        destruct (store_messages_run a b c d e f g) as (w2 & -> & _)
    end.
    unfold ret. discriminate.
Qed.

(** One invocation either writes to no table or is a completed
    interaction of some caller. *)
Lemma serve_unchanged_or_completes (env : Env) (req : Request) (w : World) :
  (profiles (fst (serve env req w)) = profiles w /\
   reward_transactions (fst (serve env req w)) = reward_transactions w /\
   message_rows (fst (serve env req w)) = message_rows w /\
   conversations (fst (serve env req w)) = conversations w /\
   (gemini_calls (fst (serve env req w)) = gemini_calls w \/
    exists c, gemini_calls (fst (serve env req w)) = (gemini_calls w ++ [c])%list)) \/
  exists uid profile r,
    completes env req w uid profile (fst (serve env req w)) r.
Proof.
  destruct (serve env req w) as [w' resp] eqn:Hs. cbn [fst].
  destruct resp as [|r|e d].
  - left. unfold serve in Hs.
    destruct (method req =? "OPTIONS")%string.
    + injection Hs as <-. auto 6.
    + destruct (chat env req w) as [w1 [e|r1]]; discriminate.
  - right. destruct (serve_ok_inv _ _ _ _ _ Hs) as (uid & profile & Hc). eauto.
  - left. unfold serve in Hs.
    destruct (method req =? "OPTIONS")%string; [discriminate|].
    destruct (chat env req w) as [w1 [e1|r1]] eqn:Hc; [|discriminate].
    injection Hs as <- _ _.
    pose proof (chat_err_inv _ _ _ _ _ Hc) as (Hp & Hl & Hmr & Hcv).
    pose proof (chat_err_calls _ _ _ _ _ Hc). auto 6.
Qed.

Lemma completes_chat (env : Env) (req : Request) (w : World) (uid : string)
  (profile : ProfileRow) (w' : World) (r : ChatResponse) :
  completes env req w uid profile w' r -> chat env req w = (w', inr r).
Proof.
  intros [_ Hs]. unfold serve in Hs.
  destruct (method req =? "OPTIONS")%string; [discriminate|].
  destruct (chat env req w) as [w1 [e|r1]]; [discriminate|].
  now injection Hs as <- <-.
Qed.

(** What one invocation appends: at most one ledger row, one LLM call
    and one exchange of two message rows; a ledger row and message rows
    only together with an LLM call. *)
Lemma serve_appends (env : Env) (req : Request) (w : World) :
  exists txs ms cs,
    reward_transactions (fst (serve env req w)) = (reward_transactions w ++ txs)%list /\
    message_rows (fst (serve env req w)) = (message_rows w ++ ms)%list /\
    gemini_calls (fst (serve env req w)) = (gemini_calls w ++ cs)%list /\
    (List.length txs <= List.length cs)%nat /\
    (List.length cs <= 1)%nat /\
    (List.length ms <= 2 * List.length cs)%nat.
Proof.
  destruct (serve_unchanged_or_completes env req w)
    as [(_ & Hl & Hm & _ & Hg)|(uid & profile & r & Hc)].
  - destruct Hg as [Hg|[c Hg]].
    + exists [], [], []. rewrite Hl, Hm, Hg, !app_nil_r. cbn. repeat split; lia.
    + exists [], [], [c]. rewrite Hl, Hm, Hg, !app_nil_r. cbn. repeat split; lia.
  - pose proof (completes_ledger _ _ _ _ _ _ _ Hc) as Hl.
    apply completes_chat in Hc.
    destruct (chat_ok_full _ _ _ _ _ Hc)
      as (msgs & uid' & profile' & k & c & cs & _ & _ & _ & _ & _ & _ & _ & Hg & Hm & _).
    eexists _, _, _. split; [exact Hl|]. split; [exact Hm|]. split; [exact Hg|].
    cbn [List.length]. split; [lia|]. split; [lia|].
    destruct (truthy _); cbn; lia.
Qed.

(** X6. The ledger, the stored messages and the log of LLM calls only
    grow: over any sequence of invocations the old rows stay in place.
    Every reward transaction comes with an LLM call of its own, there is
    at most one call per invocation, and at most two message rows per call. *)
Theorem tables_append_only (calls : list (Env * Request)) (w : World) :
  exists txs ms cs,
    reward_transactions (serve_all calls w) = (reward_transactions w ++ txs)%list /\
    message_rows (serve_all calls w) = (message_rows w ++ ms)%list /\
    gemini_calls (serve_all calls w) = (gemini_calls w ++ cs)%list /\
    (List.length txs <= List.length cs)%nat /\
    (List.length cs <= List.length calls)%nat /\
    (List.length ms <= 2 * List.length cs)%nat.
Proof.
  revert w. induction calls as [|[env req] calls IH]; intros w.
  - exists [], [], []. cbn. rewrite !app_nil_r. repeat split; lia.
  - cbn [serve_all].
    destruct (serve_appends env req w) as (t1 & m1 & c1 & Ht1 & Hm1 & Hc1 & L1 & L2 & L3).
    destruct (IH (fst (serve env req w)))
      as (t2 & m2 & c2 & Ht2 & Hm2 & Hc2 & K1 & K2 & K3).
    exists (t1 ++ t2)%list, (m1 ++ m2)%list, (c1 ++ c2)%list.
    rewrite Ht2, Hm2, Hc2, Ht1, Hm1, Hc1, <- !app_assoc, !length_app.
    cbn [List.length]. repeat split; lia.
Qed.

(** X7. No invocation creates, deletes or re-keys a row of [profiles] or
    of [conversations]: over any sequence of invocations the user ids and
    the conversation ids stay as they are, row by row. *)
Theorem rows_never_created_or_deleted (calls : list (Env * Request)) (w : World) :
  map user_id (profiles (serve_all calls w)) = map user_id (profiles w) /\
  map conv_id (conversations (serve_all calls w)) = map conv_id (conversations w).
Proof.
  revert w. induction calls as [|[env req] calls IH]; intros w; [auto|].
  cbn [serve_all]. destruct (IH (fst (serve env req w))) as [-> ->].
  destruct (serve_unchanged_or_completes env req w)
    as [(Hp & _ & _ & Hcv & _)|(uid & profile & r & Hc)].
  - now rewrite Hp, Hcv.
  - pose proof (completes_outcome _ _ _ _ _ _ _ Hc) as Ho.
    apply completes_chat in Hc.
    destruct (chat_ok_full _ _ _ _ _ Hc)
      as (msgs & uid' & profile' & k & c & cs & _ & _ & _ & _ & _ & _ & _ & _ & _ & Hcv).
    rewrite (out_profiles _ _ _ _ _ _ _ Ho), Hcv, map_map. split.
    + apply map_ext. intros row.
      destruct (user_id row =? uid)%string; reflexivity.
    + destruct (truthy _) as [cid|]; [|reflexivity].
      destruct (conversation_rows cid w); [|reflexivity].
      rewrite map_map. apply map_ext. intros cv.
      destruct (conv_id cv =? cid)%string; reflexivity.
Qed.

(** One invocation, seen from a user whose profile row is single: the
    row and the user's part of the ledger are left alone, or the
    invocation is a completed interaction of that user. *)
Lemma serve_user_step (env : Env) (req : Request) (w : World)
  (uid : string) (p : ProfileRow) :
  profile_rows uid w = [p] ->
  (profile_rows uid (fst (serve env req w)) = [p] /\
   exists txs,
     reward_transactions (fst (serve env req w)) = (reward_transactions w ++ txs)%list /\
     user_transactions uid txs = []) \/
  ((boost_flag req = true -> 10 <= reward_points p) /\
   profile_rows uid (fst (serve env req w)) =
     [updated_profile p (today env) (boost_flag req) p] /\
   reward_transactions (fst (serve env req w)) =
     (reward_transactions w ++ [ledger_entry uid p (today env) (boost_flag req)])%list).
Proof.
  intros Hrow.
  destruct (serve_unchanged_or_completes env req w)
    as [(Hp & Hl & _)|(caller & q & r & Hc)].
  - left. split.
    + unfold profile_rows in *. now rewrite Hp.
    + exists []. rewrite app_nil_r. auto.
  - pose proof (completes_ledger _ _ _ _ _ _ _ Hc) as Hl.
    apply completes_outcome in Hc.
    destruct Hc as [Hq Hb _ _ _ _ Hp Hst _ _].
    destruct (String.eqb_spec caller uid) as [->|Hne].
    + right. rewrite Hrow in Hq. injection Hq as <-. auto.
    + left. split.
      * assert (Hu : user_id p = uid).
        { apply (profile_rows_user uid w). rewrite Hrow. now left. }
        unfold profile_rows. rewrite Hp, filter_map_same_key.
        2:{ intros row. destruct (user_id row =? caller)%string; reflexivity. }
        fold (profile_rows uid w). rewrite Hrow. cbn [map].
        destruct (String.eqb_spec (user_id p) caller); [congruence|reflexivity].
      * eexists. split; [exact Hl|].
        unfold user_transactions, ledger_entry. cbn [filter tx_user_id].
        destruct (String.eqb_spec caller uid); [contradiction|reflexivity].
Qed.










Lemma newStreak_started (p : ProfileRow) (t : CalDate) :
  streak_started p -> 1 <= newStreak p t.
Proof.
  unfold streak_started, newStreak, streak_bonus.
  destruct (last_message_date p) as [l|]; cbn [isNewDay].
  - intros H. destruct (negb (date_eqb l t));
      [destruct (isConsecutiveDay (Some l) t)|]; cbn [snd]; lia.
  - intros _. cbn. lia.
Qed.

(** X10. A profile that has chatted has a streak of at least 1, and stays
    so: over any sequence of invocations, a single profile row that
    satisfies "a last message date implies a streak of at least 1" still
    satisfies it, and a last message date, once set, is never unset. *)
Theorem streak_started_invariant (calls : list (Env * Request)) (w : World)
  (uid : string) (p : ProfileRow) :
  profile_rows uid w = [p] ->
  streak_started p ->
  exists p',
    profile_rows uid (serve_all calls w) = [p'] /\
    streak_started p' /\
    (last_message_date p <> None -> last_message_date p' <> None).
Proof.
  revert w p. induction calls as [|[env req] calls IH]; intros w p Hrow Hinv.
  - exists p. auto.
  - cbn [serve_all].
    destruct (serve_user_step env req w uid p Hrow)
      as [(Hrow1 & _)|(_ & Hrow1 & _)].
    + apply (IH _ _ Hrow1 Hinv).
    + destruct (IH _ _ Hrow1) as (p' & Hrow' & Hinv' & Hset).
      * unfold streak_started. cbn [updated_profile last_message_date daily_streak].
        now apply newStreak_started.
      * exists p'. split; [exact Hrow'|]. split; [exact Hinv'|].
        intros _. apply Hset. discriminate.
Qed.

Lemma streak_started_invariant_witness :
  exists p',
    profile_rows "user-1"
      (serve_all [(env_on (mkDate 2024 3 10), request false);
                  (env_on (mkDate 2024 3 14), request false)]
                 (world_of (profile_of 5 2 (Some (mkDate 2024 3 9)) 7)))
    = [p'] /\
    streak_started p' /\
    (Some (mkDate 2024 3 9) <> None -> last_message_date p' <> None).
Proof.
  apply (streak_started_invariant
           [(env_on (mkDate 2024 3 10), request false);
            (env_on (mkDate 2024 3 14), request false)]
           (world_of (profile_of 5 2 (Some (mkDate 2024 3 9)) 7))
           "user-1" (profile_of 5 2 (Some (mkDate 2024 3 9)) 7)).
  - reflexivity.
  - cbn. lia.
Defined.

(* ================================================================== *)
(** ** The bonus, the stored conversation and the prompt *)

Lemma isConsecutiveDay_dates_valid (l t : CalDate) :
  isConsecutiveDay (Some l) t = true ->
  Date_valid l = true /\ Date_valid t = true.
Proof.
  unfold isConsecutiveDay, getTime.
  destruct (Date_valid t), (Date_valid l); try discriminate. auto.
Qed.

Lemma pointsEarned_six (p : ProfileRow) (t : CalDate) :
  pointsEarned p t = 6 ->
  exists l,
    last_message_date p = Some l /\
    isConsecutiveDay (Some l) t = true /\
    newStreak p t = daily_streak p + 1.
Proof.
  unfold pointsEarned, newStreak, streak_bonus.
  destruct (isNewDay (last_message_date p) t); [|discriminate].
  destruct (isConsecutiveDay (last_message_date p) t) eqn:Hc.
  - destruct (last_message_date p) as [l|]; [|discriminate]. eauto.
  - destruct (last_message_date p); discriminate.
Qed.

(** X11. The streak bonus is paid only the day after the last message. A
    completed interaction earns 1 or 6 points; when it earns 6, the
    profile had a last message date, today is the calendar day that
    follows it, and the streak grew by exactly 1. *)
Theorem bonus_only_the_day_after (env : Env) (req : Request) (w : World)
  (uid : string) (profile : ProfileRow) (w' : World) (r : ChatResponse) :
  completes env req w uid profile w' r ->
  (r_pointsEarned r = 1 \/ r_pointsEarned r = 6) /\
  (r_pointsEarned r = 6 ->
   exists l,
     last_message_date profile = Some l /\
     days_between l (today env) = 1 /\
     today env = next_day l /\
     r_newStreak r = daily_streak profile + 1).
Proof.
  intros Hc. apply completes_outcome in Hc.
  destruct Hc as [_ _ He Hs _ _ _ _ _ _]. rewrite He, Hs. split.
  - apply pointsEarned_cases.
  - intros H6. destruct (pointsEarned_six _ _ H6) as (l & Hl & Hcons & Hns).
    exists l. split; [exact Hl|].
    pose proof (isConsecutiveDay_days _ _ Hcons) as Hd.
    destruct (isConsecutiveDay_dates_valid _ _ Hcons) as [Vl Vt].
    apply Date_valid_iff in Vl, Vt.
    split; [exact Hd|]. split; [|exact Hns].
    apply days_between_one; tauto.
Qed.

Lemma bonus_only_the_day_after_witness :
  exists l,
    Some (mkDate 2024 2 29) = Some l /\
    days_between l (mkDate 2024 3 1) = 1 /\
    mkDate 2024 3 1 = next_day l /\
    4 = 3 + 1.
Proof.
  refine (proj2
    (bonus_only_the_day_after
       (env_on (mkDate 2024 3 1)) (request false)
       (world_of (profile_of 20 3 (Some (mkDate 2024 2 29)) 10))
       "user-1" (profile_of 20 3 (Some (mkDate 2024 2 29)) 10)
       (fst (serve (env_on (mkDate 2024 3 1)) (request false)
                   (world_of (profile_of 20 3 (Some (mkDate 2024 2 29)) 10))))
       (answer 6 0 4 26) _) _).
  - split; [exists [mkChatMessage user "hi"]; reflexivity | reflexivity].
  - reflexivity.
Defined.

Lemma completes_full (env : Env) (req : Request) (w : World) (uid : string)
  (profile : ProfileRow) (w' : World) (r : ChatResponse) :
  completes env req w uid profile w' r ->
  exists msgs,
    load_profile env req w = (w, inr (msgs, uid, profile)) /\
    message_rows w' =
      (message_rows w ++
       match truthy (conversationId (body req)) with
       | Some cid => exchange cid uid msgs r
       | None => []
       end)%list /\
    conversations w' =
      match truthy (conversationId (body req)) with
      | Some cid =>
          match conversation_rows cid w with
          | [] => map (fun c => if (conv_id c =? cid)%string
                                then mkConversation (conv_id c)
                                       (conversation_title
                                          (content (hd (mkChatMessage user "") msgs)))
                                else c)
                      (conversations w)
          | _ :: _ => conversations w
          end
      | None => conversations w
      end.
Proof.
  intros Hc. pose proof Hc as [[msgs Hl] _]. apply completes_chat in Hc.
  destruct (chat_ok_full _ _ _ _ _ Hc)
    as (msgs' & uid' & profile' & k & c & cs & Hl' & _ & _ & _ & _ & _ & _ & _ & Hm & Hcv).
  rewrite Hl in Hl'. injection Hl' as <- <- <-.
  exists msgs. auto.
Qed.

(** X12. Without a conversation id (the key absent, null or the empty
    string) a completed interaction stores no message and touches no
    conversation: the points are earned and the ledger row is written,
    but the exchange itself is not kept. *)
Theorem no_conversation_nothing_stored (env : Env) (req : Request) (w : World)
  (uid : string) (profile : ProfileRow) (w' : World) (r : ChatResponse) :
  completes env req w uid profile w' r ->
  truthy (conversationId (body req)) = None ->
  message_rows w' = message_rows w /\
  conversations w' = conversations w /\
  reward_transactions w' =
    (reward_transactions w
     ++ [ledger_entry uid profile (today env) (boost_flag req)])%list.
Proof.
  intros Hc Hcid. pose proof (completes_ledger _ _ _ _ _ _ _ Hc) as Hl.
  destruct (completes_full _ _ _ _ _ _ _ Hc) as (msgs & _ & Hm & Hcv).
  rewrite Hcid in Hm, Hcv. rewrite app_nil_r in Hm. auto.
Qed.

Lemma no_conversation_nothing_stored_witness :
  message_rows
    (fst (serve (env_on (mkDate 2024 3 10))
                (mkRequest "POST" (Some "Bearer token-1")
                   (mkChatRequest (Some [mkChatMessage user "hi"]) (Some "") None))
                (world_of (profile_of 20 3 None 0)))) = [] /\
  conversations
    (fst (serve (env_on (mkDate 2024 3 10))
                (mkRequest "POST" (Some "Bearer token-1")
                   (mkChatRequest (Some [mkChatMessage user "hi"]) (Some "") None))
                (world_of (profile_of 20 3 None 0)))) = [] /\
  reward_transactions
    (fst (serve (env_on (mkDate 2024 3 10))
                (mkRequest "POST" (Some "Bearer token-1")
                   (mkChatRequest (Some [mkChatMessage user "hi"]) (Some "") None))
                (world_of (profile_of 20 3 None 0)))) =
  ([] ++ [ledger_entry "user-1" (profile_of 20 3 None 0) (mkDate 2024 3 10) false])%list.
Proof.
  apply (no_conversation_nothing_stored
           (env_on (mkDate 2024 3 10))
           (mkRequest "POST" (Some "Bearer token-1")
              (mkChatRequest (Some [mkChatMessage user "hi"]) (Some "") None))
           (world_of (profile_of 20 3 None 0))
           "user-1" (profile_of 20 3 None 0) _ (answer 1 0 1 21)).
  - split; [exists [mkChatMessage user "hi"]; reflexivity | reflexivity].
  - reflexivity.
Defined.

Lemma last_nonempty_default {A : Type} (a : A) (l : list A) (d d' : A) :
  last (a :: l) d = last (a :: l) d'.
Proof.
  revert a. induction l as [|b l IH]; intros a; [reflexivity|].
  change (last (b :: l) d = last (b :: l) d'). apply IH.
Qed.

(** X13. With a conversation id a completed interaction appends exactly
    two message rows to the conversation, in this order: the last message
    of the request under role "user", then the answer under role
    "assistant" with its token count and response time. The title of the
    conversation is written only if the conversation had no stored
    message before, and then it is made from the first message of the
    request; a conversation that already has messages keeps its title. *)
Theorem exchange_stored (env : Env) (req : Request) (w : World)
  (uid : string) (profile : ProfileRow) (w' : World) (r : ChatResponse) (cid : string) :
  completes env req w uid profile w' r ->
  truthy (conversationId (body req)) = Some cid ->
  exists m ms,
    messages (body req) = Some (m :: ms) /\
    message_rows w' =
      (message_rows w ++
       [mkMessageRow cid uid (content (last (m :: ms) m)) "user" None None;
        mkMessageRow cid uid (response r) "assistant"
                     (Some (tokensUsed r)) (Some (responseTime r))])%list /\
    (conversation_rows cid w <> [] -> conversations w' = conversations w) /\
    (conversation_rows cid w = [] ->
     conversations w' =
     map (fun c => if (conv_id c =? cid)%string
                   then mkConversation (conv_id c) (conversation_title (content m))
                   else c)
         (conversations w)).
Proof.
  intros Hc Hcid.
  destruct (completes_full _ _ _ _ _ _ _ Hc) as (msgs & Hl & Hm & Hcv).
  destruct (load_profile_ok _ _ _ _ _ _ _ Hl) as (Hmsgs & Hne & _).
  destruct msgs as [|m ms]; [congruence|].
  rewrite Hcid in Hm, Hcv. exists m, ms. split; [exact Hmsgs|]. split.
  - rewrite Hm. unfold exchange.
    now rewrite (last_nonempty_default m ms (mkChatMessage user "") m).
  - split.
    + intros Hrows. rewrite Hcv. destruct (conversation_rows cid w); congruence.
    + intros Hrows. rewrite Hcv, Hrows. reflexivity.
Qed.

Lemma exchange_stored_witness :
  exists m ms,
    Some [mkChatMessage user "first"; mkChatMessage assistant "yes?";
          mkChatMessage user "second"] = Some (m :: ms) /\
    message_rows
      (fst (serve (env_on (mkDate 2024 3 10))
              (mkRequest "POST" (Some "Bearer token-1")
                 (mkChatRequest
                    (Some [mkChatMessage user "first"; mkChatMessage assistant "yes?";
                           mkChatMessage user "second"])
                    (Some "c1") None))
              (mkWorld [profile_of 20 3 None 0] [] [] [mkConversation "c1" "New Conversation"] [])))
    = ([] ++
       [mkMessageRow "c1" "user-1" (Backend.content (last (m :: ms) m)) "user" None None;
        mkMessageRow "c1" "user-1" "Hello!" "assistant" (Some 42) (Some 350)])%list /\
    (conversation_rows "c1"
       (mkWorld [profile_of 20 3 None 0] [] [] [mkConversation "c1" "New Conversation"] [])
     <> [] ->
     conversations
       (fst (serve (env_on (mkDate 2024 3 10))
              (mkRequest "POST" (Some "Bearer token-1")
                 (mkChatRequest
                    (Some [mkChatMessage user "first"; mkChatMessage assistant "yes?";
                           mkChatMessage user "second"])
                    (Some "c1") None))
              (mkWorld [profile_of 20 3 None 0] [] [] [mkConversation "c1" "New Conversation"] [])))
     = [mkConversation "c1" "New Conversation"]) /\
    (conversation_rows "c1"
       (mkWorld [profile_of 20 3 None 0] [] [] [mkConversation "c1" "New Conversation"] [])
     = [] ->
     conversations
       (fst (serve (env_on (mkDate 2024 3 10))
              (mkRequest "POST" (Some "Bearer token-1")
                 (mkChatRequest
                    (Some [mkChatMessage user "first"; mkChatMessage assistant "yes?";
                           mkChatMessage user "second"])
                    (Some "c1") None))
              (mkWorld [profile_of 20 3 None 0] [] [] [mkConversation "c1" "New Conversation"] [])))
     = map (fun c => if (conv_id c =? "c1")%string
                     then mkConversation (conv_id c)
                            (conversation_title (Backend.content m))
                     else c)
           [mkConversation "c1" "New Conversation"]).
Proof.
  apply (exchange_stored
           (env_on (mkDate 2024 3 10))
           (mkRequest "POST" (Some "Bearer token-1")
              (mkChatRequest
                 (Some [mkChatMessage user "first"; mkChatMessage assistant "yes?";
                        mkChatMessage user "second"])
                 (Some "c1") None))
           (mkWorld [profile_of 20 3 None 0] [] [] [mkConversation "c1" "New Conversation"] [])
           "user-1" (profile_of 20 3 None 0) _ (answer 1 0 1 21) "c1").
  - split; [|reflexivity].
    exists [mkChatMessage user "first"; mkChatMessage assistant "yes?";
            mkChatMessage user "second"].
    reflexivity.
  - reflexivity.
Defined.

(** One invocation rewrites [conversations] row by row, leaving alone
    every conversation that has a stored message; and it only appends to
    [messages]. *)
Lemma serve_conversations (env : Env) (req : Request) (w : World) :
  exists f ms,
    conversations (fst (serve env req w)) = map f (conversations w) /\
    (forall c, conversation_rows (conv_id c) w <> [] -> f c = c) /\
    message_rows (fst (serve env req w)) = (message_rows w ++ ms)%list.
Proof.
  destruct (serve_unchanged_or_completes env req w)
    as [(_ & _ & Hm & Hcv & _)|(uid & profile & r & Hc)].
  - exists (fun c => c), []. rewrite Hcv, Hm, map_id, app_nil_r. auto.
  - destruct (completes_full _ _ _ _ _ _ _ Hc) as (msgs & _ & Hm & Hcv).
    destruct (truthy (conversationId (body req))) as [cid|].
    + destruct (conversation_rows cid w) eqn:Hrows.
      * eexists _, _. split; [exact Hcv|]. split; [|exact Hm].
        intros c Hc'. cbv beta.
        destruct (String.eqb_spec (conv_id c) cid) as [E|E]; [|reflexivity].
        rewrite E in Hc'. contradiction.
      * exists (fun c => c). eexists. rewrite Hcv, map_id. split; [reflexivity|].
        split; [reflexivity|exact Hm].
    + exists (fun c => c). eexists. rewrite Hcv, map_id. split; [reflexivity|].
      split; [reflexivity|exact Hm].
Qed.

Lemma conversation_rows_app (cid : string) (w w1 : World) (ms : list MessageRow) :
  message_rows w1 = (message_rows w ++ ms)%list ->
  conversation_rows cid w <> [] -> conversation_rows cid w1 <> [].
Proof.
  unfold conversation_rows. intros ->. rewrite filter_app.
  destruct (filter _ (message_rows w)); [contradiction|discriminate].
Qed.

(** X14. Once a conversation has a stored message, its row is never
    changed again: over any sequence of invocations the title of such a
    conversation stays what it was. *)
Theorem title_written_once (calls : list (Env * Request)) (w : World)
  (i : nat) (c : ConversationRow) :
  nth_error (conversations w) i = Some c ->
  conversation_rows (conv_id c) w <> [] ->
  nth_error (conversations (serve_all calls w)) i = Some c.
Proof.
  revert w. induction calls as [|[env req] calls IH]; intros w Hi Hrows.
  - exact Hi.
  - cbn [serve_all].
    destruct (serve_conversations env req w) as (f & ms & Hcv & Hf & Hm).
    apply IH.
    + rewrite Hcv, nth_error_map, Hi. cbn. now rewrite Hf.
    + now apply (conversation_rows_app _ w _ ms).
Qed.

Lemma title_written_once_witness :
  nth_error
    (conversations
       (serve_all
          [(env_on (mkDate 2024 3 10),
            mkRequest "POST" (Some "Bearer token-1")
              (mkChatRequest (Some [mkChatMessage user "again"]) (Some "c1") None))]
          (mkWorld [profile_of 20 3 None 0] []
                   [mkMessageRow "c1" "user-1" "first" "user" None None]
                   [mkConversation "c1" "first"] [])))
    0
  = Some (mkConversation "c1" "first").
Proof.
  apply (title_written_once
           [(env_on (mkDate 2024 3 10),
             mkRequest "POST" (Some "Bearer token-1")
               (mkChatRequest (Some [mkChatMessage user "again"]) (Some "c1") None))]
           (mkWorld [profile_of 20 3 None 0] []
                    [mkMessageRow "c1" "user-1" "first" "user" None None]
                    [mkConversation "c1" "first"] [])
           0%nat (mkConversation "c1" "first")).
  - reflexivity.
  - discriminate.
Defined.

(** X15. The prompt sent to the LLM: one instruction message under role
    "user", then the messages of the request one for one and in order,
    each with its text unchanged, an assistant message under role
    "model" and a user message under role "user". No other role is sent,
    and the boost flag changes the instruction and nothing else. *)
Theorem prompt_structure (b : bool) (msgs : list ChatMessage) :
  geminiMessages b msgs =
    mkGeminiMessage "user" (systemMessage b) :: tl (geminiMessages b msgs) /\
  List.length (geminiMessages b msgs) = S (List.length msgs) /\
  map g_text (tl (geminiMessages b msgs)) = map Backend.content msgs /\
  map (fun g => (g_role g =? "model")%string) (tl (geminiMessages b msgs)) =
    map (fun m => match Backend.role m with assistant => true | user => false end) msgs /\
  Forall (fun g => g_role g = "user" \/ g_role g = "model") (geminiMessages b msgs) /\
  tl (geminiMessages b msgs) = tl (geminiMessages (negb b) msgs) /\
  systemMessage b <> systemMessage (negb b).
Proof.
  unfold geminiMessages. cbn [tl List.length].
  split; [reflexivity|]. split; [now rewrite length_map|].
  split; [rewrite map_map; reflexivity|].
  split.
  { rewrite map_map. apply map_ext. intros m. cbn [g_role].
    destruct (Backend.role m); reflexivity. }
  split.
  { constructor; [now left|]. apply Forall_forall. intros g Hg.
    apply in_map_iff in Hg. destruct Hg as (m & <- & _). cbn [g_role].
    destruct (Backend.role m); auto. }
  split; [reflexivity|]. destruct b; discriminate.
Qed.

Lemma replace_first_unfold (pat rep s : string) :
  replace_first pat rep s =
  if prefix pat s
  then (rep ++ substring (String.length pat)
                         (String.length s - String.length pat) s)%string
  else match s with
       | EmptyString => s
       | String c s' => String c (replace_first pat rep s')
       end.
Proof. destruct s; reflexivity. Qed.

Lemma substring_whole (s : string) : substring 0 (String.length s) s = s.
Proof. induction s as [|c s IH]; cbn; [reflexivity|now rewrite IH]. Qed.

Lemma substring_skip (a s : string) (n : nat) :
  substring (String.length a) n (a ++ s) = substring 0 n s.
Proof. induction a as [|c a IH]; cbn; [reflexivity|exact IH]. Qed.

Lemma length_append (a s : string) :
  String.length (a ++ s) = (String.length a + String.length s)%nat.
Proof. induction a as [|c a IH]; cbn; [reflexivity|now rewrite IH]. Qed.

Lemma replace_first_absent (pat rep s : string) :
  contains pat s = false -> replace_first pat rep s = s.
Proof.
  induction s as [|c s IH]; intros H; rewrite replace_first_unfold;
    cbn [contains] in H; apply orb_false_iff in H; destruct H as [-> H].
  - reflexivity.
  - now rewrite IH.
Qed.

(** X16. The token the handler passes to the identity service is the
    token the caller put behind "Bearer ": for every token, also one that
    itself contains "Bearer ", removing the first "Bearer " from
    "Bearer <token>" gives the token back. A header that does not contain
    "Bearer " is passed whole. *)
Theorem bearer_token_round_trip :
  (forall token : string,
     replace_first "Bearer " "" ("Bearer " ++ token) = token) /\
  (forall header : string,
     contains "Bearer " header = false ->
     replace_first "Bearer " "" header = header).
Proof.
  split.
  - intros token. rewrite replace_first_unfold.
    rewrite (prefix_app "Bearer " token).
    rewrite (length_append "Bearer " token).
    replace (String.length "Bearer " + String.length token - String.length "Bearer ")%nat
      with (String.length token) by lia.
    rewrite (substring_skip "Bearer " token). cbn [append].
    apply substring_whole.
  - intros header. apply replace_first_absent.
Qed.

Lemma bearer_token_round_trip_witness :
  replace_first "Bearer " "" "token-1" = "token-1".
Proof.
  apply (proj2 bearer_token_round_trip "token-1"). reflexivity.
Defined.

Lemma substring_short (n : nat) (s : string) :
  (String.length s <= n)%nat -> substring 0 n s = s.
Proof.
  revert n. induction s as [|c s IH]; intros n H.
  - now destruct n.
  - destruct n as [|n]; cbn in *; [lia|]. rewrite IH by lia. reflexivity.
Qed.

Lemma substring_length_long (n : nat) (s : string) :
  (n <= String.length s)%nat -> String.length (substring 0 n s) = n.
Proof.
  revert n. induction s as [|c s IH]; intros n H.
  - destruct n; cbn in *; [reflexivity|lia].
  - destruct n as [|n]; cbn in *; [reflexivity|]. rewrite IH by lia. reflexivity.
Qed.

Lemma substring_prefix (n : nat) (s : string) : prefix (substring 0 n s) s = true.
Proof.
  revert n. induction s as [|c s IH]; intros n.
  - now destruct n.
  - destruct n as [|n]; cbn; [reflexivity|].
    destruct (ascii_dec c c); [apply IH|contradiction].
Qed.

(** X17. The title made from a first message: a message of at most 50
    characters is the title as it is; a longer one gives its first 50
    characters followed by "...", 53 characters in all. A title is never
    longer than 53 characters and, up to the dots, is a prefix of the
    message. *)
Theorem conversation_title_bounds (first : string) :
  ((String.length first <= 50)%nat -> conversation_title first = first) /\
  ((50 < String.length first)%nat ->
   conversation_title first = (substring 0 50 first ++ "...")%string /\
   String.length (conversation_title first) = 53%nat) /\
  (String.length (conversation_title first) <= 53)%nat /\
  prefix (substring 0 50 first) first = true.
Proof.
  pose proof (substring_prefix 50 first) as Hpre.
  assert (E : forall s : string, (s ++ "")%string = s).
  { intros s. induction s as [|c s IH]; cbn; [reflexivity|now rewrite IH]. }
  unfold conversation_title.
  destruct (Nat.ltb_spec 50 (String.length first)) as [Hlong|Hshort].
  - split; [lia|]. rewrite length_append, substring_length_long by lia.
    cbn [String.length]. split; [split; [reflexivity|lia]|].
    split; [lia|exact Hpre].
  - rewrite E. split; [intros _; now apply substring_short|].
    split; [lia|]. split; [|exact Hpre].
    rewrite substring_short by lia. lia.
Qed.

Lemma conversation_title_bounds_witness :
  conversation_title "hi" = "hi".
Proof.
  apply (proj1 (conversation_title_bounds "hi")). cbn. lia.
Defined.

(* ================================================================== *)
(** ** The caller and the handler together *)

Lemma last_app_one {A : Type} (l : list A) (a d : A) : last (l ++ [a]) d = a.
Proof. apply last_last. Qed.

Lemma chatMessages_last (messages : list Client.Message) (userMessage now : string)
  (d : ChatMessage) :
  last (Client.chatMessages messages (Client.tempUserMessage userMessage now)) d
  = mkChatMessage user userMessage.
Proof.
  unfold Client.chatMessages. rewrite map_app. cbn [map].
  apply last_app_one.
Qed.

Lemma chatMessages_nonempty (messages : list Client.Message) (userMessage now : string) :
  exists m ms,
    Client.chatMessages messages (Client.tempUserMessage userMessage now) = m :: ms.
Proof.
  unfold Client.chatMessages. rewrite map_app. cbn [map].
  destruct (map _ messages); cbn [app]; eauto.
Qed.

Lemma bearer_strip (token : string) :
  replace_first "Bearer " "" ("Bearer " ++ token) = token.
Proof.
  rewrite replace_first_unfold, (prefix_app "Bearer " token),
    (length_append "Bearer " token).
  replace (String.length "Bearer " + String.length token - String.length "Bearer ")%nat
    with (String.length token) by lia.
  rewrite (substring_skip "Bearer " token). cbn [append].
  apply substring_whole.
Qed.

Lemma invoke_loads (env : Env) (w : World) (messages : list Client.Message)
  (userMessage now : string) (cid : option string) (b : bool)
  (access_token uid : string) (p : ProfileRow) :
  getUser env access_token = Some uid ->
  profile_rows uid w = [p] ->
  load_profile env (Client.invoke messages userMessage now cid b access_token) w =
  (w, inr (Client.chatMessages messages (Client.tempUserMessage userMessage now), uid, p)).
Proof.
  intros Hu Hrow.
  destruct (chatMessages_nonempty messages userMessage now) as (m & ms & E).
  apply (load_profile_complete _ _ _ _ ("Bearer " ++ access_token)%string).
  - reflexivity.
  - rewrite E. discriminate.
  - reflexivity.
  - now rewrite bearer_strip.
  - exact Hrow.
Qed.

(** X18. A request built by [sendMessage] always gets past the checks of
    the handler on the request itself: it is a POST that carries at least
    one message and a bearer header, and the handler authenticates it
    with exactly the access token of the session. So when the identity
    service knows the token, the caller has a single profile row, the
    LLM answers and a requested boost is covered, the interaction
    completes. *)
Theorem client_request_is_served (env : Env) (w : World)
  (messages : list Client.Message) (userMessage now : string)
  (cid : option string) (b : bool) (access_token uid : string) (p : ProfileRow) :
  getUser env access_token = Some uid ->
  profile_rows uid w = [p] ->
  (b = true -> 10 <= reward_points p) ->
  gemini_answers env b
    (Client.chatMessages messages (Client.tempUserMessage userMessage now)) ->
  exists w' r,
    completes env (Client.invoke messages userMessage now cid b access_token)
              w uid p w' r.
Proof.
  intros Hu Hrow Hb Hg.
  apply (serve_completes _ _ _
           (Client.chatMessages messages (Client.tempUserMessage userMessage now))).
  - reflexivity.
  - now apply invoke_loads.
  - exact Hb.
  - exact Hg.
Qed.

Lemma client_request_is_served_witness :
  exists w' r,
    completes (env_on (mkDate 2024 3 10))
              (Client.invoke [] "hello" "2024-03-10T08:00:00.000Z" None true "token-1")
              (world_of (profile_of 10 0 None 0))
              "user-1" (profile_of 10 0 None 0) w' r.
Proof.
  apply (client_request_is_served
           (env_on (mkDate 2024 3 10)) (world_of (profile_of 10 0 None 0))
           [] "hello" "2024-03-10T08:00:00.000Z" None true "token-1" "user-1"
           (profile_of 10 0 None 0)).
  - reflexivity.
  - reflexivity.
  - intros _. cbn. lia.
  - exists "key". split; [reflexivity|]. split; [reflexivity|].
    exists "Hello!", []. reflexivity.
Defined.

(** X19. What the user typed is what is asked and what is stored. For a
    completed interaction of a request built by [sendMessage] with a
    conversation id: the prompt sent to the LLM is made of the messages
    on screen followed by the typed message, which comes last under role
    "user"; and the two rows appended to [messages] are the typed message
    and the answer. *)
Theorem typed_message_sent_and_stored (env : Env) (w : World)
  (messages : list Client.Message) (userMessage now : string)
  (cid : string) (b : bool) (access_token uid : string) (p : ProfileRow)
  (w' : World) (r : ChatResponse) :
  cid <> "" ->
  completes env (Client.invoke messages userMessage now (Some cid) b access_token)
            w uid p w' r ->
  (exists k,
     gemini_calls w' =
       (gemini_calls w ++
        [mkGeminiCall k
           (geminiMessages b
              (Client.chatMessages messages
                 (Client.tempUserMessage userMessage now)))])%list) /\
  last (geminiMessages b
          (Client.chatMessages messages (Client.tempUserMessage userMessage now)))
       (mkGeminiMessage "" "")
  = mkGeminiMessage "user" userMessage /\
  message_rows w' =
    (message_rows w ++
     [mkMessageRow cid uid userMessage "user" None None;
      mkMessageRow cid uid (response r) "assistant"
                   (Some (tokensUsed r)) (Some (responseTime r))])%list.
Proof.
  intros Hcid Hc.
  destruct (completes_full _ _ _ _ _ _ _ Hc) as (msgs & Hl & Hm & _).
  destruct (load_profile_ok _ _ _ _ _ _ _ Hl) as (Hmsgs & _ & _ & _).
  cbn [Client.invoke body Backend.messages] in Hmsgs. injection Hmsgs as <-.
  pose proof (completes_chat _ _ _ _ _ _ _ Hc) as Hchat.
  destruct (chat_ok_full _ _ _ _ _ Hchat)
    as (msgs' & uid' & p' & k & c & cs & Hl' & _ & _ & _ & _ & _ & _ & Hg & _ & _).
  rewrite Hl in Hl'. injection Hl' as <- <- <-.
  split; [exists k; exact Hg|]. split.
  - unfold geminiMessages.
    unfold Client.chatMessages. rewrite map_app, map_app. cbn [map].
    change (?x :: ?l ++ [?y])%list with ((x :: l) ++ [y])%list.
    apply last_app_one.
  - rewrite Hm. cbn [Client.invoke body conversationId truthy].
    destruct cid as [|ch cid']; [contradiction|].
    unfold exchange. now rewrite chatMessages_last.
Qed.

Lemma typed_message_sent_and_stored_witness :
  message_rows
    (fst (serve (env_on (mkDate 2024 3 10))
                (Client.invoke [] "hello" "2024-03-10T08:00:00.000Z" (Some "c1")
                               false "token-1")
                (world_of (profile_of 10 0 None 0)))) =
  ([] ++
   [mkMessageRow "c1" "user-1" "hello" "user" None None;
    mkMessageRow "c1" "user-1" "Hello!" "assistant" (Some 42) (Some 350)])%list.
Proof.
  refine (proj2 (proj2
    (typed_message_sent_and_stored
       (env_on (mkDate 2024 3 10)) (world_of (profile_of 10 0 None 0))
       [] "hello" "2024-03-10T08:00:00.000Z" "c1" false "token-1" "user-1"
       (profile_of 10 0 None 0) _ (answer 1 0 1 11) _ _))).
  - discriminate.
  - split; [exists [mkChatMessage user "hello"]; reflexivity | reflexivity].
Defined.

(** X20. The toast after a completed interaction tells what happened: it
    names the points earned (1 or 6), mentions the 10 points of the boost
    exactly when the boost was requested, and the streak bonus exactly
    when 6 points were earned. *)
Theorem toast_reports_rewards (env : Env) (req : Request) (w : World)
  (uid : string) (profile : ProfileRow) (w' : World) (r : ChatResponse) :
  completes env req w uid profile w' r ->
  Client.toastMessage (r_pointsEarned r) (pointsSpent r) =
  match boost_flag req, r_pointsEarned r =? 6 with
  | false, false => "+1 points earned"
  | false, true => "+6 points earned (streak bonus!)"
  | true, false => "+1 points earned, -10 for boost"
  | true, true => "+6 points earned, -10 for boost (streak bonus!)"
  end.
Proof.
  intros Hc. apply completes_outcome in Hc.
  destruct Hc as [_ _ He _ Hsp _ _ _ _ _]. rewrite Hsp, He.
  destruct (pointsEarned_cases profile (today env)) as [-> | ->],
    (boost_flag req); reflexivity.
Qed.

Lemma toast_reports_rewards_witness :
  Client.toastMessage 6 10 = "+6 points earned, -10 for boost (streak bonus!)".
Proof.
  apply (toast_reports_rewards
           (env_on (mkDate 2024 3 1)) (request true)
           (world_of (profile_of 20 3 (Some (mkDate 2024 2 29)) 10))
           "user-1" (profile_of 20 3 (Some (mkDate 2024 2 29)) 10)
           (fst (serve (env_on (mkDate 2024 3 1)) (request true)
                       (world_of (profile_of 20 3 (Some (mkDate 2024 2 29)) 10))))
           (answer 6 10 4 16)).
  split; [exists [mkChatMessage user "hi"]; reflexivity | reflexivity].
Defined.

Lemma filter_all {A : Type} (f : A -> bool) (l : list A) :
  Forall (fun a => f a = true) l -> filter f l = l.
Proof.
  induction 1 as [|a l Ha _ IH]; cbn; [reflexivity|]. now rewrite Ha, IH.
Qed.

(** The three updates of a successful [sendMessage], composed. *)
Lemma success_list (userMessage now1 now2 now3 : string)
  (r : ChatResponse) (prev : list Client.Message) :
  Client.messages_after_success userMessage now1 now2 now3 r prev =
    (filter (fun msg => negb (Client.id msg =? "typing")%string) prev ++
     [Client.tempUserMessage userMessage now1;
      Client.mkMessage "temp-ai" assistant (response r)
                       (Some (tokensUsed r)) (Some (responseTime r)) now3])%list.
Proof.
  unfold Client.messages_after_success, Client.show_response, Client.append_message.
  rewrite !filter_app. cbn [filter Client.id Client.tempUserMessage
                            Client.typingMessage].
  cbn [String.eqb Ascii.eqb Bool.eqb negb]. rewrite app_nil_r, <- app_assoc.
  reflexivity.
Qed.

(** X21. The list of messages after a successful [sendMessage]: the
    typing indicator is gone (every message with id "typing" is), and the
    typed message and the answer are at the end, in this order. On a list
    without typing indicator the messages on screen are kept as they
    were. *)
Theorem success_shows_exchange (userMessage now1 now2 now3 : string)
  (r : ChatResponse) (prev : list Client.Message) :
  Client.messages_after_success userMessage now1 now2 now3 r prev =
    (filter (fun msg => negb (Client.id msg =? "typing")%string) prev ++
     [Client.tempUserMessage userMessage now1;
      Client.mkMessage "temp-ai" assistant (response r)
                       (Some (tokensUsed r)) (Some (responseTime r)) now3])%list /\
  Forall (fun msg => Client.id msg <> "typing")
         (Client.messages_after_success userMessage now1 now2 now3 r prev) /\
  (Forall (fun msg => Client.id msg <> "typing") prev ->
   Client.messages_after_success userMessage now1 now2 now3 r prev =
     (prev ++
      [Client.tempUserMessage userMessage now1;
       Client.mkMessage "temp-ai" assistant (response r)
                        (Some (tokensUsed r)) (Some (responseTime r)) now3])%list).
Proof.
  pose proof (success_list userMessage now1 now2 now3 r prev) as E.
  split; [exact E|]. split.
  - rewrite E. apply Forall_app. split.
    + apply Forall_forall. intros m Hm. apply filter_In in Hm.
      destruct Hm as [_ Hm]. apply negb_true_iff, String.eqb_neq in Hm. exact Hm.
    + repeat constructor; discriminate.
  - intros Hprev. rewrite E. rewrite filter_all; [reflexivity|].
    eapply Forall_impl; [|exact Hprev]. intros m Hm. cbv beta.
    now apply negb_true_iff, String.eqb_neq.
Qed.

Lemma success_shows_exchange_witness :
  Client.messages_after_success "hello" "t1" "t2" "t3" (answer 1 0 1 11) [] =
  ([] ++
   [Client.tempUserMessage "hello" "t1";
    Client.mkMessage "temp-ai" assistant "Hello!" (Some 42) (Some 350) "t3"])%list.
Proof.
  apply (proj2 (proj2
    (success_shows_exchange "hello" "t1" "t2" "t3" (answer 1 0 1 11) []))).
  constructor.
Defined.

(** X22. The list of messages after a failed [sendMessage]: the typed
    message and the typing indicator are removed again, and a list that
    held no temporary message is back exactly as it was. But the removal
    goes by id: every earlier message with id "temp-user" is removed too,
    so after a success that was not yet reloaded, a failure drops the
    earlier question and keeps its answer. *)
Theorem failure_removes_temporaries (userMessage now1 now2 : string)
  (prev : list Client.Message) :
  Client.messages_after_failure userMessage now1 now2 prev =
    Client.remove_temporary prev /\
  Client.remove_temporary
    (Client.append_message (Client.tempUserMessage userMessage now1) prev) =
    Client.remove_temporary prev /\
  (Forall (fun msg => Client.id msg <> "temp-user" /\ Client.id msg <> "typing") prev ->
   Client.messages_after_failure userMessage now1 now2 prev = prev) /\
  (forall earlier t1 t2 t3 r,
     Forall (fun msg => Client.id msg <> "temp-user" /\ Client.id msg <> "typing") prev ->
     Client.messages_after_failure userMessage now1 now2
       (Client.messages_after_success earlier t1 t2 t3 r prev) =
     (prev ++
      [Client.mkMessage "temp-ai" assistant (response r)
                        (Some (tokensUsed r)) (Some (responseTime r)) t3])%list).
Proof.
  assert (Hclean : forall l,
    Forall (fun msg => Client.id msg <> "temp-user" /\ Client.id msg <> "typing") l ->
    Client.remove_temporary l = l).
  { intros l Hl. apply filter_all. eapply Forall_impl; [|exact Hl].
    intros m [H1 H2]. cbv beta. apply andb_true_iff.
    split; now apply negb_true_iff, String.eqb_neq. }
  assert (E1 : forall l,
    Client.remove_temporary
      (Client.append_message (Client.tempUserMessage userMessage now1) l) =
    Client.remove_temporary l).
  { intros l. unfold Client.remove_temporary, Client.append_message.
    rewrite filter_app. cbn. apply app_nil_r. }
  assert (E2 : forall l,
    Client.messages_after_failure userMessage now1 now2 l =
    Client.remove_temporary l).
  { intros l. unfold Client.messages_after_failure.
    rewrite <- (E1 l). unfold Client.remove_temporary, Client.append_message.
    rewrite (filter_app _ (l ++ _)). cbn. apply app_nil_r. }
  split; [apply E2|]. split; [apply E1|]. split.
  - intros Hprev. rewrite E2. now apply Hclean.
  - intros earlier t1 t2 t3 r Hprev. rewrite E2.
    rewrite (success_list earlier t1 t2 t3 r prev).
    unfold Client.remove_temporary. rewrite filter_app.
    fold (Client.remove_temporary
            (filter (fun msg => negb (Client.id msg =? "typing")%string) prev)).
    rewrite filter_all.
    + rewrite Hclean by assumption. reflexivity.
    + eapply Forall_impl; [|exact Hprev]. intros m [_ H]. cbv beta.
      now apply negb_true_iff, String.eqb_neq.
Qed.

Lemma failure_removes_temporaries_witness :
  Client.messages_after_failure "again" "t4" "t5"
    (Client.messages_after_success "hello" "t1" "t2" "t3" (answer 1 0 1 11) []) =
  ([] ++ [Client.mkMessage "temp-ai" assistant "Hello!" (Some 42) (Some 350) "t3"])%list.
Proof.
  apply (proj2 (proj2 (proj2
    (failure_removes_temporaries "again" "t4" "t5" [])))).
  constructor.
Defined.



(** X24. An invocation never touches the profile of anyone but its
    caller: over any sequence of invocations in which the identity
    service never resolves a token to [uid], every profile row of [uid]
    stays exactly as it was, at its place. *)
Theorem other_profiles_untouched (calls : list (Env * Request)) (w : World)
  (uid : string) (i : nat) (row : ProfileRow) :
  Forall (fun call => forall token, getUser (fst call) token <> Some uid) calls ->
  nth_error (profiles w) i = Some row ->
  user_id row = uid ->
  nth_error (profiles (serve_all calls w)) i = Some row.
Proof.
  intros Hcalls. revert w.
  induction Hcalls as [|[env req] calls Hcall _ IH]; intros w Hi Hu; [exact Hi|].
  cbn [serve_all fst] in *. apply IH; [|exact Hu].
  destruct (serve_unchanged_or_completes env req w)
    as [(Hp & _)|(caller & q & r & Hc)].
  - now rewrite Hp.
  - pose proof Hc as [[msgs Hl] _].
    destruct (load_profile_ok _ _ _ _ _ _ _ Hl) as (_ & _ & (h & _ & Hget) & _).
    apply completes_outcome in Hc.
    rewrite (out_profiles _ _ _ _ _ _ _ Hc), nth_error_map, Hi. cbn [option_map].
    destruct (String.eqb_spec (user_id row) caller) as [E|E]; [|reflexivity].
    exfalso. apply (Hcall _ ltac:(rewrite Hget, <- E, Hu; reflexivity)).
Qed.

Lemma other_profiles_untouched_witness :
  nth_error
    (profiles
       (serve_all [(env_on (mkDate 2024 3 10), request false);
                   (env_on (mkDate 2024 3 11), request true)]
                  (mkWorld [profile_of 20 3 None 0;
                            mkProfile "user-2" 7 2 (Some (mkDate 2024 3 9)) 4]
                           [] [] [] [])))
    1
  = Some (mkProfile "user-2" 7 2 (Some (mkDate 2024 3 9)) 4).
Proof.
  apply (other_profiles_untouched
           [(env_on (mkDate 2024 3 10), request false);
            (env_on (mkDate 2024 3 11), request true)]
           (mkWorld [profile_of 20 3 None 0;
                     mkProfile "user-2" 7 2 (Some (mkDate 2024 3 9)) 4]
                    [] [] [] [])
           "user-2" 1%nat (mkProfile "user-2" 7 2 (Some (mkDate 2024 3 9)) 4)).
  - repeat constructor; cbn; intros token;
      destruct (token =? "token-1")%string; discriminate.
  - reflexivity.
  - reflexivity.
Defined.
